(** * A shallow embedding of the search engine of [search_utils_simplified.py]

    The engine [SimpleSkinSearchEngine] keeps the loaded catalog as a
    Python dict from market hash name to an item record, plus derived
    indices.  This development models the dict as an association list in
    insertion order, Python strings as Rocq strings (the UTF-8 bytes of
    the source text, so ["™"] is a three-byte sequence and substring
    tests on it agree with Python's code-point tests), and prices as
    rationals (the decimal value a [float(...)] call reads; rounding of
    IEEE arithmetic is not modelled). *)

From Stdlib Require Import Bool Ascii String List ZArith QArith Lia Sorting.Sorted.
Import ListNotations.
Open Scope string_scope.

(* ================================================================== *)
(** ** Python string primitives *)

Module Py.

(** [c.lower()] on ASCII letters; every other character (in particular
    the bytes of ["™"] and ["★"] that occur in catalog names) is left
    unchanged, as [str.lower] does for them. *)
Definition lower_char (c : ascii) : ascii :=
  let n := nat_of_ascii c in
  if ((65 <=? n) && (n <=? 90))%nat then ascii_of_nat (n + 32)%nat else c.

Definition upper_char (c : ascii) : ascii :=
  let n := nat_of_ascii c in
  if ((97 <=? n) && (n <=? 122))%nat then ascii_of_nat (n - 32)%nat else c.

Fixpoint map_chars (f : ascii -> ascii) (s : string) : string :=
  match s with
  | EmptyString => EmptyString
  | String c s' => String (f c) (map_chars f s')
  end.

Definition lower (s : string) : string := map_chars lower_char s.
Definition upper (s : string) : string := map_chars upper_char s.

(** The ASCII characters for which [str.isspace] holds: these are what
    [str.strip()] removes and what the regex class [\s] matches. *)
Definition is_space (c : ascii) : bool :=
  let n := nat_of_ascii c in
  (((9 <=? n) && (n <=? 13)) || ((28 <=? n) && (n <=? 32)))%nat.

Fixpoint lstrip (s : string) : string :=
  match s with
  | EmptyString => EmptyString
  | String c s' => if is_space c then lstrip s' else s
  end.

Definition rstrip (s : string) : string :=
  string_of_list_ascii
    (rev (list_ascii_of_string (lstrip
      (string_of_list_ascii (rev (list_ascii_of_string s)))))).

(** [s.strip()] *)
Definition strip (s : string) : string := rstrip (lstrip s).

(** [sub in s] *)
Fixpoint contains (sub s : string) : bool :=
  prefix sub s ||
  match s with
  | EmptyString => false
  | String _ s' => contains sub s'
  end.

(** [s.startswith(p)] *)
Definition startswith (s p : string) : bool := prefix p s.

(** [s.replace(old, new)] for a non-empty [old] (every call site passes
    a non-empty literal): scan left to right, replace each occurrence
    and continue after it.  [skip] counts the characters of an
    occurrence still to be dropped. *)
Fixpoint replace_aux (old new : string) (skip : nat) (s : string) : string :=
  match s with
  | EmptyString => EmptyString
  | String c s' =>
      match skip with
      | S k => replace_aux old new k s'
      | O => if prefix old s
             then new ++ replace_aux old new (pred (String.length old)) s'
             else String c (replace_aux old new O s')
      end
  end.

Definition replace (s old new : string) : string := replace_aux old new O s.

(** [any(t in s for t in ts)] *)
Definition any_in (ts : list string) (s : string) : bool :=
  existsb (fun t => contains t s) ts.

End Py.

(* ================================================================== *)
(** ** Catalog data model *)

(** A price field of an item record, as [float(item.get(k, '999999'))]
    sees it: absent (the default string ['999999'] is read), a value
    [float] accepts, or a value on which [float] raises
    [ValueError]/[TypeError]. *)
Inductive pfield := PAbsent | PVal (q : Q) | PBad.

(** [float(item_data.get(k, '999999'))], [None] when it raises. *)
Definition read_price (p : pfield) : option Q :=
  match p with
  | PAbsent => Some (999999 # 1)
  | PVal q => Some q
  | PBad => None
  end.

Record item := mk_item {
  min_price : pfield;
  max_price : pfield;
  suggested_price : pfield;
  quantity : option Z   (** [None]: key absent, [.get('quantity', 0)] gives 0 *)
}.

(** A result dictionary built by the engine. *)
Record result := mk_result {
  item_name : string;
  r_min_price : Q;
  r_max_price : Q;
  r_suggested_price : Q;
  r_quantity : Z;
  r_match_score : option Z
}.

(** The engine state after [load_data]: [self.items] in insertion order;
    [self.item_names] is its key list and [self.item_names_lower] the
    lower-cased keys. *)
Record engine := mk_engine { items : list (string * item) }.

Definition item_names (e : engine) : list string := map fst (items e).

Definition lookup_item (e : engine) (n : string) : option item :=
  match find (fun p => String.eqb (fst p) n) (items e) with
  | Some (_, it) => Some it
  | None => None
  end.

(** The price dictionary every search path builds for an item, inside a
    [try] that skips the item on [ValueError]/[TypeError]. *)
Definition price_record (n : string) (it : item) (score : option Z) : option result :=
  match read_price (min_price it) with
  | None => None
  | Some mn =>
    match read_price (max_price it) with
    | None => None
    | Some mx =>
      match read_price (suggested_price it) with
      | None => None
      | Some sg => Some (mk_result n mn mx sg
                          (match quantity it with Some k => k | None => 0%Z end)
                          score)
      end
    end
  end.

(* ================================================================== *)
(** ** [_build_weapon_index] *)

Module WeaponIndex.

Definition weapon_types : list string :=
  ["AK-47"; "M4A4"; "M4A1-S"; "AWP"; "Desert Eagle"; "USP-S"; "Glock-18";
   "P250"; "Five-SeveN"; "CZ75-Auto"; "Tec-9"; "Knife"; "Karambit"; "Bayonet";
   "Butterfly"; "Gloves"; "P90"; "MAC-10"; "MP9"; "MP7"; "UMP-45"; "PP-Bizon";
   "Galil AR"; "FAMAS"; "SG 553"; "AUG"; "SSG 08"; "G3SG1"; "SCAR-20"].

(** A dict from bucket key to list of names, in key insertion order. *)
Definition index := list (string * list string).

(** [{weapon.lower(): [] for weapon in weapon_types}] *)
Definition init_index : index := map (fun w => (Py.lower w, [])) weapon_types.

(** [self.weapon_type_index[k].append(n)] *)
Definition append_to (idx : index) (k n : string) : index :=
  map (fun p => if String.eqb (fst p) k then (fst p, (snd p ++ [n])%list) else p) idx.

(** [self.weapon_type_index.get(k, [])] *)
Definition get (idx : index) (k : string) : list string :=
  match find (fun p => String.eqb (fst p) k) idx with
  | Some (_, l) => l
  | None => []
  end.

(** The inner [for weapon in weapon_types: ... break] loop. *)
Fixpoint first_match (item_lower : string) (ws : list string) : option string :=
  match ws with
  | [] => None
  | w :: ws' => if Py.contains (Py.lower w) item_lower then Some (Py.lower w)
                else first_match item_lower ws'
  end.

Definition classify (idx : index) (item_name : string) : index :=
  let item_lower := Py.lower item_name in
  if Py.contains "stattrak™" item_lower || Py.contains "stattrak" item_lower then
    match first_match item_lower weapon_types with
    | Some wl => append_to idx wl item_name
    | None => idx
    end
  else
    match first_match item_lower weapon_types with
    | Some wl => append_to idx wl item_name
    | None => idx
    end.

Definition build_weapon_index (e : engine) : index :=
  fold_left classify (item_names e) init_index.

(** The bucket the spec assigns: the lower-cased first weapon of the
    list whose lower-cased name is a substring of the lower-cased item
    name. *)
Definition weapon_bucket (n : string) : option string :=
  match find (fun w => Py.contains (Py.lower w) (Py.lower n)) weapon_types with
  | Some w => Some (Py.lower w)
  | None => None
  end.

End WeaponIndex.

(* ================================================================== *)
(** ** [exact_match] and [_match_by_parsed_components] *)

Module Match.

Definition st_terms : list string :=
  ["stattrak™"; "stattrak"; "stat trak"; "stat-trak"; "stattrack"; "st"].

(** The [weapon_names] dict of [_match_by_parsed_components], in order. *)
Definition weapon_names : list (string * list string) :=
  [("ak-47", ["ak47"; "ak-47"; "ak"]);
   ("m4a4", ["m4a4"]);
   ("m4a1-s", ["m4a1s"; "m4a1-s"; "m4a1"]);
   ("awp", ["awp"]);
   ("desert eagle", ["deagle"; "desert eagle"; "eagle"]);
   ("glock-18", ["glock"; "glock-18"; "glock18"]);
   ("usp-s", ["usp-s"; "usps"; "usp"]);
   ("p250", ["p250"]);
   ("knife", ["knife"]);
   ("karambit", ["karambit"])].

Definition wear_conditions : list (string * list string) :=
  [("factory new", ["factory new"; "fn"]);
   ("minimal wear", ["minimal wear"; "mw"]);
   ("field-tested", ["field-tested"; "field tested"; "ft"]);
   ("well-worn", ["well-worn"; "well worn"; "ww"]);
   ("battle-scarred", ["battle-scarred"; "battle scarred"; "bs"])].

(** [for canon, aliases in table.items(): for alias in aliases:
       if alias in q: ...; break]: the first (canonical, alias) pair. *)
Fixpoint find_alias (q : string) (tbl : list (string * list string))
  : option (string * string) :=
  match tbl with
  | [] => None
  | (canon, aliases) :: rest =>
      match find (fun a => Py.contains a q) aliases with
      | Some a => Some (canon, a)
      | None => find_alias q rest
      end
  end.

Definition is_stattrak_name (item_lower : string) : bool :=
  Py.contains "stattrak™" item_lower || Py.contains "stattrak" item_lower.

(** [_match_by_parsed_components(query_lower)] *)
Definition match_by_parsed_components (e : engine) (query_lower : string) : list string :=
  let '(is_stattrak, q1) :=
    if Py.any_in st_terms query_lower
    then (true, fold_left (fun q t => Py.strip (Py.replace q t "")) st_terms query_lower)
    else (false, query_lower) in
  let '(weapon_type, q2) :=
    match find_alias q1 weapon_names with
    | Some (w, a) => (Some w, Py.strip (Py.replace q1 a ""))
    | None => (None, q1)
    end in
  let '(wear_condition, q3) :=
    match find_alias q2 wear_conditions with
    | Some (w, a) => (Some w, Py.strip (Py.replace q2 a ""))
    | None => (None, q2)
    end in
  let skin_name := Py.strip q3 in
  let skin_given := negb (String.eqb skin_name "") in
  if negb (match weapon_type with Some _ => true | None => false end
           || skin_given
           || match wear_condition with Some _ => true | None => false end)
  then []
  else
    filter (fun item_name =>
      let item_lower := Py.lower item_name in
      negb (is_stattrak && negb (is_stattrak_name item_lower)) &&
      match weapon_type with Some w => Py.contains w item_lower | None => true end &&
      (negb skin_given || Py.contains skin_name item_lower) &&
      match wear_condition with Some w => Py.contains w item_lower | None => true end)
    (item_names e).

(** Stage 1 test of [exact_match]: equality, or equality once
    ["stattrak"] in the query is rewritten to ["stattrak™"]. *)
Definition exact_key (query_lower : string) (is_stattrak : bool) (name_lower : string) : bool :=
  String.eqb query_lower name_lower ||
  (is_stattrak && Py.contains "stattrak" query_lower &&
   Py.contains "stattrak™" name_lower &&
   String.eqb (Py.replace query_lower "stattrak" "stattrak™") name_lower).

Definition prefix_key (query_lower : string) (is_stattrak : bool) (name_lower : string) : bool :=
  Py.startswith name_lower query_lower ||
  (is_stattrak && Py.contains "stattrak" query_lower &&
   Py.contains "stattrak™" name_lower &&
   Py.startswith name_lower (Py.replace query_lower "stattrak" "stattrak™")).

Definition contains_key (query_lower : string) (is_stattrak : bool) (name_lower : string) : bool :=
  Py.contains query_lower name_lower ||
  (is_stattrak && Py.contains "stattrak" query_lower &&
   Py.contains "stattrak™" name_lower &&
   Py.contains (Py.replace query_lower "stattrak" "stattrak™") name_lower).

Definition query_is_stattrak (query_lower : string) : bool :=
  Py.contains "stattrak™" query_lower || Py.contains "stattrak" query_lower ||
  Py.contains "stat trak" query_lower || Py.contains "stat-trak" query_lower.

(** [exact_match(query)]: the four stages, each returned when non-empty. *)
Definition exact_match (e : engine) (query : string) : list string :=
  let query_lower := Py.strip (Py.lower query) in
  let is_stattrak := query_is_stattrak query_lower in
  let exact_matches :=
    filter (fun n => exact_key query_lower is_stattrak (Py.lower n)) (item_names e) in
  match exact_matches with
  | _ :: _ => exact_matches
  | [] =>
    let parsed_matches := match_by_parsed_components e query_lower in
    match parsed_matches with
    | _ :: _ => parsed_matches
    | [] =>
      let prefix_matches :=
        filter (fun n => prefix_key query_lower is_stattrak (Py.lower n)) (item_names e) in
      match prefix_matches with
      | _ :: _ => prefix_matches
      | [] => filter (fun n => contains_key query_lower is_stattrak (Py.lower n)) (item_names e)
      end
    end
  end.

End Match.

(** An item whose three prices are [p]. *)
Definition sample_item (p : Q) : item := mk_item (PVal p) (PVal p) (PVal p) (Some 1%Z).

(* ================================================================== *)
(** ** [_correct_spelling] *)

Module Spelling.

Definition stattrak_synonyms : list string := ["stat trak"; "stat-trak"; "stattrack"; "st"].

(** The [skin_corrections] dict of [_correct_spelling], in order. *)
Definition skin_corrections : list (string * string) :=
  [("autorinic", "autotronic"); ("autronic", "autotronic");
   ("autoronic", "autotronic"); ("ultrvoilet", "ultraviolet");
   ("ultraviolt", "ultraviolet"); ("doplar", "doppler"); ("doplr", "doppler");
   ("marbl", "marble"); ("marbel", "marble"); ("marblefade", "marble fade");
   ("tigertoot", "tiger tooth"); ("tiger toot", "tiger tooth");
   ("casehardened", "case hardened"); ("case-hardened", "case hardened");
   ("crim web", "crimson web"); ("crimsonweb", "crimson web");
   ("blu steel", "blue steel"); ("damascus", "damascus steel");
   ("rust", "rust coat"); ("gamma dopler", "gamma doppler");
   ("gamma-doppler", "gamma doppler"); ("karambit", "karambit")].

(** [if term in q: q = q.replace(term, new)] *)
Definition replace_if_in (q old new : string) : string :=
  if Py.contains old q then Py.replace q old new else q.

(** [_correct_spelling(query)] *)
Definition correct_spelling (query : string) : string :=
  let normalized_query := Py.strip (Py.lower query) in
  let normalized_query :=
    fold_left (fun q t => replace_if_in q t "stattrak") stattrak_synonyms normalized_query in
  fold_left (fun q mc => replace_if_in q (fst mc) (snd mc)) skin_corrections normalized_query.

End Spelling.

(* ================================================================== *)
(** ** The [re] patterns of [detect_price_query] *)

Module Regex.

(** The regular-expression constructs the patterns use. [StarC p] and
    [PlusC p] are greedy repetitions of a one-character class, [Opt] is
    the greedy [?], [Alt] the ordered [|], and [Group] a capturing group
    ([(?:...)] is plain grouping and needs no constructor). *)
Inductive rx :=
| Lit (l : string)
| StarC (p : ascii -> bool)
| PlusC (p : ascii -> bool)
| Opt (r : rx)
| Alt (r1 r2 : rx)
| Seq (r1 r2 : rx)
| Group (r : rx).

Definition drop (k : nat) (s : string) : string := substring k (String.length s - k) s.

Fixpoint span (p : ascii -> bool) (s : string) : nat :=
  match s with
  | EmptyString => O
  | String c s' => if p c then S (span p s') else O
  end.

Fixpoint counts_down (n : nat) : list nat :=
  match n with
  | O => [O]
  | S k => n :: counts_down k
  end.

(** All ways [r] matches a prefix of [s], in the order Python's
    backtracking engine tries them: the rest of the input and the
    groups captured. *)
Fixpoint matches (r : rx) (s : string) : list (string * list string) :=
  match r with
  | Lit l => if prefix l s then [(drop (String.length l) s, [])] else []
  | StarC p => map (fun k => (drop k s, [])) (counts_down (span p s))
  | PlusC p => map (fun k => (drop k s, []))
                   (filter (fun k => Nat.leb 1 k) (counts_down (span p s)))
  | Opt r1 => (matches r1 s ++ [(s, [])])%list
  | Alt r1 r2 => (matches r1 s ++ matches r2 s)%list
  | Seq r1 r2 =>
      flat_map (fun m1 => map (fun m2 => (fst m2, (snd m1 ++ snd m2)%list))
                              (matches r2 (fst m1)))
               (matches r1 s)
  | Group r1 =>
      map (fun m1 => (fst m1, substring 0 (String.length s - String.length (fst m1)) s :: snd m1))
          (matches r1 s)
  end.

(** [re.search(r, s)]: the groups of the first match at the leftmost
    position where one exists. *)
Fixpoint search (r : rx) (s : string) : option (list string) :=
  match matches r s with
  | m1 :: _ => Some (snd m1)
  | [] => match s with
          | EmptyString => None
          | String _ s' => search r s'
          end
  end.

Definition is_digit (c : ascii) : bool :=
  let n := nat_of_ascii c in ((48 <=? n) && (n <=? 57))%nat.

Definition seqs (rs : list rx) : rx :=
  match rev rs with
  | [] => Lit ""
  | r :: rs' => fold_left (fun acc r1 => Seq r1 acc) rs' r
  end.

(** The class [\s] repeated. *)
Definition ws : rx := StarC Py.is_space.
(** A captured [\d+\.?\d*] (the source's number group). *)
Definition number : rx := Group (seqs [PlusC is_digit; Opt (Lit "."); StarC is_digit]).
(** Optional spaces, an optional [$] and a captured number. *)
Definition amount : rx := seqs [ws; Opt (Lit "$"); number].

(** [float(text)] on a text matched by [number]. *)
Definition decimal_value (text : string) : Q :=
  let fix go (s : string) (n : Z) (den : positive) (after_dot : bool) : Q :=
    match s with
    | EmptyString => Qmake n den
    | String c s' =>
        if Ascii.eqb c "." then go s' n den true
        else go s' (10 * n + Z.of_nat (nat_of_ascii c - 48))%Z
                (if after_dot then (10 * den)%positive else den) after_dot
    end in
  go text 0%Z 1%positive false.

End Regex.

(* ================================================================== *)
(** ** [detect_price_query] *)

Module Price.
Import Regex.

Definition price_keywords : list string :=
  ["price"; "cost"; "value"; "worth"; "expensive"; "cheap"; "cheapest";
   "affordable"; "budget"; "money"; "dollar"; "usd"; "$"; "most expensive";
   "highest price"; "priciest"].

Definition under_patterns : list rx :=
  [seqs [Lit "under"; amount];
   seqs [Lit "less than"; amount];
   seqs [Lit "cheaper than"; amount];
   seqs [Lit "below"; amount];
   seqs [Alt (Lit "max") (Lit "maximum"); ws; Opt (Lit "of"); amount];
   seqs [Alt (Lit "at most") (Lit "no more than"); amount];
   seqs [Alt (Lit "up to") (Lit "not exceeding"); amount]].

Definition over_patterns : list rx :=
  [seqs [Lit "over"; amount];
   seqs [Lit "more than"; amount];
   seqs [Lit "above"; amount];
   seqs [Alt (Lit "min") (Lit "minimum"); ws; Opt (Lit "of"); amount];
   seqs [Alt (Lit "at least") (Lit "no less than"); amount];
   seqs [Lit "starting "; Alt (Lit "at") (Lit "from"); amount]].

(** The source's [between_pattern]: [between], an amount, the word [and], [to] or a
    dash, and a second amount. *)
Definition between_pattern : rx :=
  seqs [Lit "between"; amount; ws; Alt (Lit "and") (Alt (Lit "to") (Lit "-")); amount].

(** The bare-amount pattern: an optional [$] and a captured number. *)
Definition dollar_pattern : rx := seqs [Opt (Lit "$"); number].

(** The loop over a pattern list: the first pattern that matches gives
    the bound ([break]); a match without its group would raise
    [IndexError], which is passed over. *)
Fixpoint first_bound (pats : list rx) (q : string) : option Q :=
  match pats with
  | [] => None
  | p :: ps =>
      match search p q with
      | Some (x :: _) => Some (decimal_value x)
      | _ => first_bound ps q
      end
  end.

Definition is_some (o : option Q) : bool :=
  match o with Some _ => true | None => false end.

(** Python truthiness of an optional float. *)
Definition truthy (o : option Q) : bool :=
  match o with
  | Some v => negb (Qeq_bool v 0)
  | None => false
  end.

(** [detect_price_query(query)]: [(is_price_query, max_price, min_price)]. *)
Definition detect_price_query (query : string) : bool * option Q * option Q :=
  let query_lower := Py.lower query in
  let is_price_query := Py.any_in price_keywords query_lower in
  let '(is_price_query, max_price, min_price) :=
    match search between_pattern query_lower with
    | Some (a :: b :: _) => (true, Some (decimal_value b), Some (decimal_value a))
    | Some _ => (is_price_query, None, None)
    | None =>
        let max_price := first_bound under_patterns query_lower in
        let min_price := first_bound over_patterns query_lower in
        (is_price_query || is_some max_price || is_some min_price, max_price, min_price)
    end in
  if negb (truthy max_price || truthy min_price) then
    match search dollar_pattern query_lower with
    | Some (x :: _) =>
        if Py.contains "price" query_lower || Py.contains "$" query_lower
        then (true, Some (decimal_value x * (11 # 10)), Some (decimal_value x * (9 # 10)))
        else (is_price_query, max_price, min_price)
    | _ => (is_price_query, max_price, min_price)
    end
  else (is_price_query, max_price, min_price).

End Price.

(* ================================================================== *)
(** ** [list.sort] *)

Module Sort.

(** Python's [list.sort] is stable: an element goes after every earlier
    element it does not compare strictly before.  [lt x y] is the
    strict comparison the sort uses ([key(x) < key(y)], or
    [key(y) < key(x)] under [reverse=True]). *)
Fixpoint insert_by {A} (lt : A -> A -> bool) (x : A) (l : list A) : list A :=
  match l with
  | [] => [x]
  | y :: l' => if lt x y then x :: l else y :: insert_by lt x l'
  end.

Definition sort_by {A} (lt : A -> A -> bool) (l : list A) : list A :=
  fold_left (fun acc x => insert_by lt x acc) l [].

Definition Qltb (a b : Q) : bool := negb (Qle_bool b a).

(** [sort(key=lambda x: x['min_price'])] *)
Definition by_price_asc (a b : result) : bool := Qltb (r_min_price a) (r_min_price b).
(** [sort(key=lambda x: -x['min_price'])] *)
Definition by_neg_price (a b : result) : bool := Qltb (- r_min_price a) (- r_min_price b).
(** [sort(key=lambda x: x['min_price'], reverse=True)] *)
Definition by_price_rev (a b : result) : bool := Qltb (r_min_price b) (r_min_price a).

End Sort.

(** [items[name]] followed by the guarded price dictionary. *)
Definition record_of (e : engine) (n : string) : option result :=
  match lookup_item e n with
  | Some it => price_record n it None
  | None => None
  end.

(* ================================================================== *)
(** ** [search_by_price_range] and the extremum searches *)

Module PriceRange.

Definition excluded_keywords : list string :=
  ["Sticker"; "Patch"; "Graffiti"; "Case"; "Container"; "Capsule"; "Music Kit"; "Charm"].

Definition weapon_keywords : list string :=
  ["AK-47"; "M4A4"; "M4A1-S"; "AWP"; "Desert Eagle"; "USP-S"; "Glock-18";
   "P250"; "Five-SeveN"; "CZ75-Auto"; "Tec-9"; "Knife"; "Karambit"; "Bayonet";
   "Butterfly"; "Gloves"; "P90"; "MAC-10"; "MP9"; "MP7"; "UMP-45"; "PP-Bizon";
   "Galil AR"; "FAMAS"; "SG 553"; "AUG"; "SSG 08"; "G3SG1"; "SCAR-20"; "Dual Berettas";
   "R8 Revolver"; "P2000"; "MP5-SD"; "MAG-7"; "Nova"; "Sawed-Off"; "XM1014"; "M249"; "Negev";
   "Bowie"; "Classic Knife"; "Falchion"; "Flip"; "Gut"; "Huntsman"; "Kukri"; "M9 Bayonet";
   "Navaja"; "Nomad"; "Paracord"; "Shadow Daggers"; "Skeleton"; "Stiletto"; "Survival"; "Talon";
   "Ursus"; "Zeus x27"].

(** The sticker / case / ... exclusion test (case-sensitive on the name). *)
Definition excluded (item_name : string) : bool :=
  Py.any_in excluded_keywords item_name && negb (Py.any_in weapon_keywords item_name).

(** Python truthiness of an optional weapon string. *)
Definition weapon_given (w : option string) : option string :=
  match w with
  | Some s => if String.eqb s "" then None else Some s
  | None => None
  end.

(** [float(item_data.get('min_price', '999999'))] *)
Definition current_price_of (it : item) : option Q := read_price (min_price it).

(** The body of the loop of [search_by_price_range] for one name. *)
Definition range_entry (e : engine) (max_price : option Q) (min_price : Q) (n : string)
  : option result :=
  match lookup_item e n with
  | None => None
  | Some it =>
    if excluded n then None else
    match current_price_of it with
    | None => None
    | Some current_price =>
        if match max_price with Some m => Qle_bool current_price m | None => true end &&
           Qle_bool min_price current_price
        then price_record n it None
        else None
    end
  end.

(** A loop that appends the entries its body produces. *)
Fixpoint collect {A B} (f : A -> option B) (l : list A) : list B :=
  match l with
  | [] => []
  | x :: l' => match f x with
               | Some y => y :: collect f l'
               | None => collect f l'
               end
  end.

(** [search_by_price_range(weapon_type, max_price, min_price)] *)
Definition search_by_price_range (e : engine) (weapon_type : option string)
    (max_price : option Q) (min_price : Q) : list result :=
  let names :=
    match weapon_given weapon_type with
    | Some w => WeaponIndex.get (WeaponIndex.build_weapon_index e) (Py.lower w)
    | None => item_names e
    end in
  match names with
  | [] => []
  | _ :: _ =>
    let price_data := collect (range_entry e max_price min_price) names in
    let price_data :=
      if Price.is_some max_price && Sort.Qltb 0 min_price then
        Sort.sort_by Sort.by_price_asc price_data
      else if Price.is_some max_price then
        Sort.sort_by Sort.by_neg_price price_data
      else if Sort.Qltb 0 min_price then
        Sort.sort_by Sort.by_price_asc price_data
      else
        Sort.sort_by Sort.by_price_asc price_data in
    firstn 15 price_data
  end.

(** [search_cheapest_by_weapon(weapon_type, limit)] *)
Definition search_cheapest_by_weapon (e : engine) (weapon_type : string) (limit : option nat)
  : list result :=
  let weapon_items := WeaponIndex.get (WeaponIndex.build_weapon_index e) (Py.lower weapon_type) in
  match weapon_items with
  | [] => []
  | _ :: _ =>
    let price_data := Sort.sort_by Sort.by_price_asc (collect (record_of e) weapon_items) in
    match limit with
    | Some k => firstn k price_data
    | None => price_data
    end
  end.

(** [search_most_expensive_by_weapon(weapon_type, limit)] *)
Definition search_most_expensive_by_weapon (e : engine) (weapon_type : string)
    (limit : option nat) : list result :=
  let weapon_items := WeaponIndex.get (WeaponIndex.build_weapon_index e) (Py.lower weapon_type) in
  match weapon_items with
  | [] => []
  | _ :: _ =>
    let price_data := Sort.sort_by Sort.by_price_rev (collect (record_of e) weapon_items) in
    match limit with
    | Some k => firstn k price_data
    | None => price_data
    end
  end.

(** The catalog-wide loop of the cheapest / most-expensive cases of
    [search]: non-StatTrak names are skipped when StatTrak was asked for. *)
Definition all_items (e : engine) (is_stattrak : bool) : list result :=
  collect (fun n => if is_stattrak && negb (Match.is_stattrak_name (Py.lower n)) then None
                    else record_of e n)
          (item_names e).

(** Generic cheapest query: [all_items.sort(...)]; [all_items[:25]]. *)
Definition cheapest_all (e : engine) (is_stattrak : bool) : list result :=
  firstn 25 (Sort.sort_by Sort.by_price_asc (all_items e is_stattrak)).

(** Generic most-expensive query. *)
Definition most_expensive_all (e : engine) (is_stattrak : bool) : list result :=
  firstn 25 (Sort.sort_by Sort.by_price_rev (all_items e is_stattrak)).

End PriceRange.

(* ================================================================== *)
(** ** [hierarchical_search] *)

Module Hierarchical.

(** [fuzzy_search(query, top_k)] ranks names with the external
    [fuzzywuzzy] scorer; it is a parameter of the search, so every
    statement below holds whatever it returns. *)
Definition fuzzy_fn := string -> nat -> list (string * Z).

(** [results.append({..., 'match_score': 100})] guarded by
    [if item_name in self.items] and the price [try]. *)
Definition scored_record (e : engine) (n : string) : option result :=
  match lookup_item e n with
  | Some it => price_record n it (Some 100%Z)
  | None => None
  end.

Definition weapon_index_keys : list string := map fst WeaponIndex.init_index.

(** [hierarchical_search(query, limit)] *)
Definition hierarchical_search (fuzzy_search : fuzzy_fn) (e : engine) (query : string)
    (limit : nat) : list result :=
  let query := Py.strip (Py.lower query) in
  let exact_matches := Match.exact_match e query in
  let exact_matches :=
    match exact_matches with
    | [] => Match.match_by_parsed_components e query
    | _ :: _ => exact_matches
    end in
  let exact_matches :=
    match exact_matches with
    | [] => if String.eqb query "" then []
            else map fst (filter (fun p => Z.ltb 75 (snd p)) (fuzzy_search query limit))
    | _ :: _ => exact_matches
    end in
  let results := PriceRange.collect (scored_record e) exact_matches in
  match results with
  | _ :: _ => firstn limit results
  | [] =>
    let query := Spelling.correct_spelling query in
    let '(is_price_query, max_price, min_price) := Price.detect_price_query query in
    if is_price_query && (Price.is_some max_price || Price.is_some min_price) then
      let weapon_type := find (fun key => Py.contains key query) weapon_index_keys in
      let price_results :=
        PriceRange.search_by_price_range e weapon_type max_price
          (match min_price with Some v => v | None => 0 end) in
      match price_results with
      | _ :: _ => firstn limit price_results
      | [] => firstn limit results
      end
    else firstn limit results
  end.

End Hierarchical.

(* ================================================================== *)
(** ** [search]: query analysis and the price cases *)

Module Search.

(** The [weapon_names] dict of [search]. *)
Definition weapon_names : list (string * list string) :=
  [("ak-47", ["ak47"; "ak-47"; "ak"]);
   ("m4a4", ["m4a4"]);
   ("m4a1-s", ["m4a1s"; "m4a1-s"; "m4a1"]);
   ("awp", ["awp"]);
   ("desert eagle", ["deagle"; "desert eagle"; "eagle"]);
   ("glock-18", ["glock"; "glock-18"; "glock18"]);
   ("usp-s", ["usp-s"; "usps"; "usp"]);
   ("p250", ["p250"]);
   ("knife", ["knife"; "knives"]);
   ("karambit", ["karambit"])].

(** The query [search] works on after [hierarchical_search] gave
    nothing: lower-cased, stripped, then spelling-corrected. *)
Definition search_query (query : string) : string :=
  Spelling.correct_spelling (Py.strip (Py.lower query)).

(** [detected_weapon]: the first weapon one of whose aliases occurs. *)
Definition detected_weapon (query : string) : option string :=
  match find (fun wa => Py.any_in (snd wa) query) weapon_names with
  | Some (w, _) => Some w
  | None => None
  end.

(** [is_stattrak = any(term in query for term in [...])] *)
Definition is_stattrak (query : string) : bool := Py.any_in Match.st_terms query.

Definition stattrak_only (rs : list result) : list result :=
  filter (fun r => Match.is_stattrak_name (Py.lower (item_name r))) rs.

(** Case 1 of [search]: a price range query ([min_price or 0] is the
    lower bound); [Some rs] when it returns [rs]. *)
Definition range_case (e : engine) (q : string) : option (list result) :=
  let '(is_price_query, max_price, min_price) := Price.detect_price_query q in
  if is_price_query && (Price.is_some max_price || Price.is_some min_price) then
    let price_results :=
      PriceRange.search_by_price_range e (detected_weapon q) max_price
        (match min_price with Some v => v | None => 0 end) in
    match price_results with
    | [] => None
    | _ :: _ =>
      let price_results := if is_stattrak q then stattrak_only price_results else price_results in
      match price_results with
      | [] => None
      | _ :: _ => Some price_results
      end
    end
  else None.

(** Case 2 of [search]: a cheapest query. *)
Definition cheapest_case (e : engine) (q : string) : option (list result) :=
  if Py.contains "cheapest" q || Py.contains "lowest price" q || Py.contains "least expensive" q then
    match detected_weapon q with
    | Some w =>
      let price_data := PriceRange.search_cheapest_by_weapon e w (Some 25%nat) in
      let price_data := if is_stattrak q then stattrak_only price_data else price_data in
      match price_data with [] => None | _ :: _ => Some price_data end
    | None =>
      match PriceRange.cheapest_all e (is_stattrak q) with [] => None | rs => Some rs end
    end
  else None.

(** Case 2.5 of [search]: a most-expensive query. *)
Definition most_expensive_case (e : engine) (q : string) : option (list result) :=
  if Py.contains "most expensive" q || Py.contains "highest price" q || Py.contains "priciest" q then
    match detected_weapon q with
    | Some w =>
      let price_data := PriceRange.search_most_expensive_by_weapon e w (Some 25%nat) in
      let price_data := if is_stattrak q then stattrak_only price_data else price_data in
      match price_data with [] => None | _ :: _ => Some price_data end
    | None =>
      match PriceRange.most_expensive_all e (is_stattrak q) with [] => None | rs => Some rs end
    end
  else None.

(** Cases 1, 2 and 2.5 of [search] in order: [Some rs] when one of them
    returns [rs], [None] when control falls through to the name-matching
    cases 3 to 6. *)
Definition price_cases (e : engine) (query : string) : option (list result) :=
  let q := search_query query in
  match range_case e q with
  | Some rs => Some rs
  | None =>
    match cheapest_case e q with
    | Some rs => Some rs
    | None => most_expensive_case e q
    end
  end.

End Search.

(* ================================================================== *)
(** ** [format_search_results] *)

Module Format.

Definition nl : string := String (ascii_of_nat 10) EmptyString.

(** ["sep".join(l)] *)
Fixpoint join (sep : string) (l : list string) : string :=
  match l with
  | [] => ""
  | [x] => x
  | x :: l' => x ++ sep ++ join sep l'
  end.

(** The [wear_conditions] dict of [format_search_results], in order. *)
Definition wear_conditions : list (string * list string) :=
  [("factory new", ["factory new"; "fn"]);
   ("minimal wear", ["minimal wear"; "mw"]);
   ("field-tested", ["field-tested"; "field tested"; "ft"]);
   ("well-worn", ["well-worn"; "well worn"; "ww"]);
   ("battle-scarred", ["battle-scarred"; "battle scarred"; "bs"])].

Definition skin_patterns : list string :=
  ["autotronic"; "lore"; "doppler"; "gamma doppler"; "marble fade"; "tiger tooth";
   "fade"; "crimson web"; "slaughter"; "case hardened"; "ultraviolet"; "night";
   "blue steel"; "damascus steel"; "rust coat"; "scorched"; "forest ddpat";
   "urban masked"; "stained"; "safari mesh"; "boreal forest"].

Definition weapon_names : list string :=
  ["ak-47"; "m4a4"; "m4a1-s"; "awp"; "desert eagle"; "glock-18"; "usp-s"; "p250";
   "knife"; "karambit"].

Definition detected_wear (query_lower : string) : option string :=
  option_map fst (find (fun wa => Py.any_in (snd wa) query_lower) wear_conditions).

Definition detected_skin (query_lower : string) : option string :=
  find (fun p => Py.contains p query_lower) skin_patterns.

Definition detected_weapon (query_lower : string) : option string :=
  option_map Py.upper
    (find (fun w => Py.contains w query_lower || Py.contains (Py.replace w "-" "") query_lower)
       weapon_names).

Definition tip : string :=
  nl ++ nl ++ "Note: Prices and availability change frequently. For the most up-to-date information, check Skinport directly.".

Section Format.

(** [self.search(q, limit=n)], called recursively for the alternatives. *)
Variable search : string -> nat -> list result.
(** [f"{x:.2f}"] and [f"{n}"]. *)
Variable fmt2 : Q -> string.
Variable fmt_int : Z -> string.
(** The part of [format_search_results] after the [if not results:]
    block, reached only with a non-empty result list. *)
Variable format_found : list result -> string -> string.

Definition item_text (r : result) : string :=
  item_name r ++ ":" ++ nl ++ "• Skinport Price: $" ++ fmt2 (r_min_price r) ++
  (if negb (Qeq_bool (r_max_price r) (r_min_price r)) then " - $" ++ fmt2 (r_max_price r) else "") ++
  nl ++ "• Suggested Price: $" ++ fmt2 (r_suggested_price r) ++
  nl ++ "• Available: " ++ fmt_int (r_quantity r) ++ " items".

(** [alternate_results]: first the other wear conditions of the StatTrak
    item, then, if none of them gave anything, the non-StatTrak item. *)
Definition alternate_results (weapon skin wear : string) : list result :=
  let by_wear :=
    flat_map (fun w =>
      if String.eqb (fst w) wear then []
      else search ("stattrak " ++ weapon ++ " " ++ skin ++ " " ++ fst w) 3)
      wear_conditions in
  match by_wear with
  | [] => search (weapon ++ " " ++ skin ++ " " ++ wear) 3
  | _ :: _ => by_wear
  end.

Definition format_search_results (results : list result) (query : string) : string :=
  let query_lower := Py.lower query in
  let is_stattrak := Py.any_in Match.st_terms query_lower in
  let dwear := detected_wear query_lower in
  let dskin := detected_skin query_lower in
  let dweapon := detected_weapon query_lower in
  match results with
  | _ :: _ => format_found results query
  | [] =>
    match dweapon, dskin, dwear, is_stattrak with
    | Some weapon, Some skin, Some wear, true =>
      match alternate_results weapon skin wear with
      | (_ :: _) as alts =>
        let note := "I couldn't find a StatTrak™ " ++ weapon ++ " | " ++ skin ++ " (" ++ wear ++
                    "), but here are some related alternatives:" in
        note ++ nl ++ nl ++ join (nl ++ nl) (map item_text (firstn 3 alts)) ++ tip
      | [] =>
        "I couldn't find the StatTrak™ " ++ weapon ++ " | " ++ skin ++ " (" ++ wear ++
        ") in the current data. " ++
        "This item might be unavailable on Skinport or our data may need to be updated. " ++
        "For real-time availability, check Skinport directly."
      end
    | _, _, _, _ =>
      "I couldn't find any CS2 skins matching '" ++ query ++ "'." ++
      " Please try using a more specific name or check your spelling."
    end
  end.

End Format.

End Format.

(* ================================================================== *)
(** ** [_build_stattrak_index] *)

Module StatTrakIndex.

(** [self.stattrak_items], [self.non_stattrak_items] and
    [self.stattrak_mapping] (a dict in insertion order). *)
Record st_index := mk_st_index {
  stattrak_items : list string;
  non_stattrak_items : list string;
  stattrak_mapping : list (string * string)
}.

(** [d[k] = v]: an existing key keeps its place and gets the new value,
    a new key goes last. *)
Definition dict_set (d : list (string * string)) (k v : string) : list (string * string) :=
  if existsb (fun p => String.eqb (fst p) k) d
  then map (fun p => if String.eqb (fst p) k then (k, v) else p) d
  else (d ++ [(k, v)])%list.

(** [d.get(k)] *)
Definition dict_get (d : list (string * string)) (k : string) : option string :=
  match find (fun p => String.eqb (fst p) k) d with
  | Some (_, v) => Some v
  | None => None
  end.

(** [item_name.replace("StatTrak™ ", "").replace("StatTrak ", "")] *)
Definition non_st_name (n : string) : string :=
  Py.replace (Py.replace n "StatTrak™ " "") "StatTrak " "".

(** The body of the loop over [self.item_names]. *)
Definition add_name (ix : st_index) (item_name : string) : st_index :=
  if Match.is_stattrak_name (Py.lower item_name) then
    mk_st_index (stattrak_items ix ++ [item_name])%list (non_stattrak_items ix)
      (dict_set (stattrak_mapping ix) (non_st_name item_name) item_name)
  else
    mk_st_index (stattrak_items ix) (non_stattrak_items ix ++ [item_name])%list
      (stattrak_mapping ix).

Definition build_stattrak_index (e : engine) : st_index :=
  fold_left add_name (item_names e) (mk_st_index [] [] []).

End StatTrakIndex.

(* ================================================================== *)
(** ** More Python string and list primitives *)

Module PyStr.

(** [s.split(sep)] for a one-character separator: the pieces between
    separators, empty ones included. *)
Fixpoint split_sep (sep : ascii) (s : string) : list string :=
  match s with
  | EmptyString => [""]
  | String c s' =>
      let rest := split_sep sep s' in
      if Ascii.eqb c sep then "" :: rest
      else match rest with
           | w :: ws => String c w :: ws
           | [] => [String c EmptyString]
           end
  end.

(** [s.split()]: the maximal runs of non-whitespace characters. *)
Fixpoint split_ws (s : string) : list string :=
  match s with
  | EmptyString => []
  | String c s' =>
      if Py.is_space c then split_ws s'
      else match s' with
           | EmptyString => [String c EmptyString]
           | String c2 _ =>
               if Py.is_space c2 then String c EmptyString :: split_ws s'
               else match split_ws s' with
                    | w :: ws => String c w :: ws
                    | [] => [String c EmptyString]
                    end
           end
  end.

(** [l.index(x)]; [None] when [x] is absent ([ValueError]). *)
Fixpoint index_of (x : string) (l : list string) : option nat :=
  match l with
  | [] => None
  | y :: l' => if String.eqb x y then Some O else option_map S (index_of x l')
  end.

(** [a < b] on strings: lexicographic on the UTF-8 bytes, which orders
    like Python's comparison of code points. *)
Definition str_ltb (a b : string) : bool :=
  match String.compare a b with Lt => true | _ => false end.

(** [d[k]] on a dict literal without repeated keys. *)
Definition lookup (d : list (string * string)) (k : string) : option string :=
  match find (fun p => String.eqb (fst p) k) d with
  | Some (_, v) => Some v
  | None => None
  end.

End PyStr.

(* ================================================================== *)
(** ** [search_by_weapon_and_skin] *)

Module WeaponSkin.

(** [process.extract(query, choices, limit=k)] of [fuzzywuzzy]: the
    best-scoring choices with their scores.  It is external, so it is
    a parameter of every definition that calls it. *)
Definition extract_fn := string -> list string -> nat -> list (string * Z).

(** [good_matches = [(skin_names[skin_parts.index(name)][0], score)
    for name, score in matches_with_scores if score >= 75]];
    [None] when [index] raises [ValueError]. *)
Fixpoint good_matches (skin_names : list (string * string)) (mws : list (string * Z))
  : option (list (string * Z)) :=
  match mws with
  | [] => Some []
  | (name, score) :: rest =>
      if Z.leb 75 score then
        match PyStr.index_of name (map snd skin_names) with
        | None => None
        | Some i =>
            match good_matches skin_names rest with
            | None => None
            | Some gm => Some ((fst (nth i skin_names ("", "")), score) :: gm)
            end
        end
      else good_matches skin_names rest
  end.

(** [sort(key=lambda x: -x[1])] *)
Definition by_neg_score (a b : string * Z) : bool := Z.ltb (- snd a) (- snd b).

(** [search_by_weapon_and_skin(weapon_type, skin_name)]; [None] when it
    raises. *)
Definition search_by_weapon_and_skin (extract : extract_fn) (e : engine)
    (weapon_type skin_name : string) : option (list string) :=
  let weapon_lower := Py.lower weapon_type in
  let skin_lower := Py.strip (Py.lower skin_name) in
  let weapon_items := WeaponIndex.get (WeaponIndex.build_weapon_index e) weapon_lower in
  let is_stattrak := Py.any_in Match.st_terms skin_lower in
  let '(detected_wear, skin_lower) :=
    match find (fun wa => Py.any_in (snd wa) skin_lower) Format.wear_conditions with
    | Some (wear, aliases) =>
        (Some wear, fold_left (fun s a => Py.strip (Py.replace s a "")) aliases skin_lower)
    | None => (None, skin_lower)
    end in
  let clean_skin_lower :=
    fold_left (fun s t => Py.strip (Py.replace s t "")) Match.st_terms skin_lower in
  let wear_ok (item_lower : string) :=
    match detected_wear with
    | None => true
    | Some w => Py.contains (Py.lower w) item_lower
    end in
  let matches :=
    filter (fun item_name =>
      let item_lower := Py.lower item_name in
      negb (is_stattrak && negb (Match.is_stattrak_name item_lower)) &&
      Py.contains clean_skin_lower
        (Py.replace (Py.replace item_lower "stattrak™ " "") "stattrak " "") &&
      wear_ok item_lower) weapon_items in
  match matches with
  | _ :: _ => Some matches
  | [] =>
    if String.eqb clean_skin_lower "" then Some [] else
    let skin_names :=
      PriceRange.collect (fun item_name =>
        let item_lower := Py.lower item_name in
        if is_stattrak && negb (Match.is_stattrak_name item_lower) then None else
        match PyStr.split_sep "|" item_lower with
        | _ :: part1 :: _ =>
            let skin_part := Py.strip (hd "" (PyStr.split_sep "(" part1)) in
            if wear_ok item_lower then Some (item_name, skin_part) else None
        | _ => None
        end) weapon_items in
    match skin_names with
    | [] => Some []
    | _ :: _ =>
      let skin_parts := map snd skin_names in
      let matches_with_scores := extract clean_skin_lower skin_parts 10%nat in
      match good_matches skin_names matches_with_scores with
      | None => None
      | Some gm => Some (map fst (Sort.sort_by by_neg_score gm))
      end
    end
  end.

End WeaponSkin.

(* ================================================================== *)
(** ** [fuzzy_search] *)

Module Fuzzy.

(** The [skin_corrections] dict of [fuzzy_search]: the pairs of
    [_correct_spelling] without its last one ([karambit]). *)
Definition fuzzy_corrections : list (string * string) := removelast Spelling.skin_corrections.

(** The StatTrak-synonym rewriting and the spelling corrections of
    [fuzzy_search], on the lower-cased, stripped query. *)
Definition normalize (query : string) : string :=
  let nq := fold_left (fun q t => Spelling.replace_if_in q t "stattrak")
              Spelling.stattrak_synonyms query in
  fold_left (fun q mc => Spelling.replace_if_in q (fst mc) (snd mc)) fuzzy_corrections nq.

Definition weapon_prefixes : list (string * string) :=
  [("ak", "ak-47"); ("ak47", "ak-47"); ("ak-47", "ak-47");
   ("m4a4", "m4a4"); ("m4a1s", "m4a1-s"); ("m4a1-s", "m4a1-s"); ("m4", "m4a4");
   ("awp", "awp"); ("deagle", "desert eagle"); ("desert eagle", "desert eagle");
   ("glock", "glock-18"); ("glock18", "glock-18"); ("glock-18", "glock-18");
   ("usp", "usp-s"); ("usps", "usp-s"); ("usp-s", "usp-s");
   ("p250", "p250"); ("fiveseven", "five-seven"); ("five-seven", "five-seven");
   ("cz", "cz75-auto"); ("cz75", "cz75-auto"); ("cz75-auto", "cz75-auto");
   ("tec9", "tec-9"); ("tec-9", "tec-9");
   ("karambit", "karambit"); ("bayonet", "bayonet"); ("butterfly", "butterfly knife");
   ("m9", "m9 bayonet"); ("m9 bayonet", "m9 bayonet"); ("flip", "flip knife");
   ("gut", "gut knife"); ("falchion", "falchion knife"); ("shadow", "shadow daggers");
   ("huntsman", "huntsman knife"); ("bowie", "bowie knife"); ("daggers", "shadow daggers");
   ("knife", "knife")].

(** The loop collecting [exact_matches] for a weapon, skin pattern and
    wear condition. *)
Definition targeted (e : engine) (weapon skin wear : string) (is_stattrak : bool) : list string :=
  filter (fun item_name =>
    let item_lower := Py.lower item_name in
    Py.contains weapon item_lower && Py.contains skin item_lower &&
    Py.contains wear item_lower && (negb is_stattrak || Py.contains "stattrak" item_lower))
    (item_names e).

Definition with_100 (l : list string) : list (string * Z) := map (fun n => (n, 100%Z)) l.

(** [if is_stattrak: stattrak_results = [...]; if stattrak_results: return
    ...]; otherwise all the weapon results. *)
Definition prefer_stattrak (is_stattrak : bool) (l : list string) : list string :=
  if is_stattrak then
    match filter (fun n => Match.is_stattrak_name (Py.lower n)) l with
    | [] => l
    | st => st
    end
  else l.

Section Fuzzy.

Variable extract : WeaponSkin.extract_fn.
Variable e : engine.

(** The targeted search and the weapon-and-skin search for a known
    weapon: [Some (Some r)] returns [r], [Some None] goes on, [None]
    raises. *)
Definition weapon_stage (weapon_type skin_name : string) (detected_skin detected_wear : option string)
    (is_stattrak : bool) : option (option (list (string * Z))) :=
  let exact_matches :=
    match detected_skin, detected_wear with
    | Some s, Some w => targeted e weapon_type s w is_stattrak
    | _, _ => []
    end in
  match exact_matches with
  | _ :: _ => Some (Some (with_100 exact_matches))
  | [] =>
    if String.eqb skin_name "" then Some None else
    match WeaponSkin.search_by_weapon_and_skin extract e weapon_type skin_name with
    | None => None
    | Some [] => Some None
    | Some weapon_results => Some (Some (with_100 (prefer_stattrak is_stattrak weapon_results)))
    end
  end.

(** [fuzzy_search(query, top_k)]; [None] when it raises. *)
Definition fuzzy_search (query : string) (top_k : nat) : option (list (string * Z)) :=
  match item_names e with
  | [] => Some []
  | _ :: _ =>
    let query := Py.strip (Py.lower query) in
    let is_stattrak := Py.any_in Match.st_terms query in
    let normalized_query := normalize query in
    let detected_wear := Format.detected_wear normalized_query in
    let detected_skin := Format.detected_skin normalized_query in
    let fallback :=
      let stattrak_results :=
        extract normalized_query
          (StatTrakIndex.stattrak_items (StatTrakIndex.build_stattrak_index e)) top_k in
      if is_stattrak && match stattrak_results with
                        | (_, s) :: _ => Z.ltb 80 s
                        | [] => false
                        end
      then Some stattrak_results
      else Some (extract normalized_query (item_names e) top_k) in
    let karambit_case :=
      if Py.contains "karambit" normalized_query then
        let skin_name := Py.strip (Py.replace normalized_query "karambit" "") in
        let skin_name :=
          if is_stattrak
          then fold_left (fun s t => Py.strip (Py.replace s t "")) Match.st_terms skin_name
          else skin_name in
        match weapon_stage "karambit" skin_name detected_skin detected_wear is_stattrak with
        | None => None
        | Some (Some r) => Some r
        | Some None => fallback
        end
      else fallback in
    match PyStr.split_ws normalized_query with
    | p0 :: rest =>
      match PyStr.lookup weapon_prefixes p0 with
      | Some weapon_type =>
        let skin_name := Format.join " " rest in
        if String.eqb skin_name "" then fallback else
        match weapon_stage weapon_type skin_name detected_skin detected_wear is_stattrak with
        | None => None
        | Some (Some r) => Some r
        | Some None => fallback
        end
      | None => karambit_case
      end
    | [] => karambit_case
    end
  end.

End Fuzzy.

End Fuzzy.

(* ================================================================== *)
(** ** [search] *)

Module Engine.

(** [results[:limit] if limit else results] *)
Definition take {A} (limit : nat) (l : list A) : list A :=
  match limit with O => l | _ => firstn limit l end.

(** [if is_stattrak: stattrak_matches = [...]; if stattrak_matches:
    matches = stattrak_matches] *)
Definition prefer_st (is_stattrak : bool) (l : list string) : list string :=
  Fuzzy.prefer_stattrak is_stattrak l.

(** The same on [(name, score)] pairs. *)
Definition prefer_st_scored (is_stattrak : bool) (l : list (string * Z)) : list (string * Z) :=
  if is_stattrak then
    match filter (fun p => Match.is_stattrak_name (Py.lower (fst p))) l with
    | [] => l
    | st => st
    end
  else l.

(** [sort(key=lambda x: x['item_name'])] *)
Definition by_name (a b : result) : bool := PyStr.str_ltb (item_name a) (item_name b).

(** [sort(key=lambda x: -x.get('match_score', 0))] *)
Definition score_of (r : result) : Z := match r_match_score r with Some s => s | None => 0%Z end.
Definition by_neg_match_score (a b : result) : bool := Z.ltb (- score_of a) (- score_of b).

(** The aliases [weapon_names.get(detected_weapon, [])]. *)
Definition aliases_of (w : string) : list string :=
  match find (fun wa => String.eqb (fst wa) w) Search.weapon_names with
  | Some (_, al) => al
  | None => []
  end.

(** The terms removed from the query to leave the skin name. *)
Definition skin_terms : list string :=
  ["price"; "cost"; "value"; "how much"; "cheapest"; "expensive";
   "stattrak™"; "stattrak"; "stat trak"; "stat-trak"; "stattrack"; "st"].

(** [skin_name] of [search] once a weapon is detected. *)
Definition skin_name_of (q w : string) : string :=
  Py.strip (fold_left (fun c t => Py.replace c t "") skin_terms
              (fold_left (fun c a => Py.replace c a "") (aliases_of w) q)).

Section Engine.

Variable extract : WeaponSkin.extract_fn.
(** [fuzz.partial_ratio], external too. *)
Variable partial_ratio : string -> string -> Z.
Variable e : engine.

(** [item_data = self.items[item_name]] ([None]: [KeyError]) and the
    guarded price dictionary ([Some None]: the item is skipped). *)
Definition keyed_record (n : string) (score : option Z) : option (option result) :=
  match lookup_item e n with
  | None => None
  | Some it => Some (price_record n it score)
  end.

(** The loop building [results] from names (and scores). *)
Fixpoint records (names : list (string * option Z)) : option (list result) :=
  match names with
  | [] => Some []
  | (n, sc) :: rest =>
      match keyed_record n sc with
      | None => None
      | Some r =>
          match records rest with
          | None => None
          | Some rs => Some (match r with Some x => x :: rs | None => rs end)
          end
      end
  end.

Definition unscored (l : list string) : list (string * option Z) := map (fun n => (n, None)) l.

(** [hierarchical_search(query, limit)] with [self.fuzzy_search]; its
    fuzzy stage is the single call [fuzzy_search(q, top_k=limit)] on the
    cleaned query [q], made when the exact and component stages found
    nothing and [q] is not empty. *)
Definition hierarchical (query : string) (limit : nat) : option (list result) :=
  let q := Py.strip (Py.lower query) in
  if match Match.exact_match e q, Match.match_by_parsed_components e q with
     | [], [] => negb (String.eqb q "")
     | _, _ => false
     end
  then match Fuzzy.fuzzy_search extract e q limit with
       | Some fr => Some (Hierarchical.hierarchical_search (fun _ _ => fr) e query limit)
       | None => None
       end
  else Some (Hierarchical.hierarchical_search (fun _ _ => []) e query limit).

(** Case 3: a weapon and a skin name.  [Some (Some r)] returns [r],
    [Some None] goes on, [None] raises. *)
Definition case3 (q w skin_name : string) (is_stattrak : bool) (limit : nat)
  : option (option (list result)) :=
  match WeaponSkin.search_by_weapon_and_skin extract e w skin_name with
  | None => None
  | Some matches =>
    let matches := prefer_st is_stattrak matches in
    match matches with
    | [] => Some None
    | _ :: _ =>
      match records (unscored matches) with
      | None => None
      | Some results =>
        let results :=
          Sort.sort_by (fun a b => Z.ltb (- partial_ratio skin_name (Py.lower (item_name a)))
                                         (- partial_ratio skin_name (Py.lower (item_name b))))
            results in
        match results with
        | [] => Some None
        | _ :: _ => Some (Some (take limit results))
        end
      end
    end
  end.

(** Case 4: a weapon and no skin name. *)
Definition case4 (w : string) (is_price_query is_stattrak : bool) (limit : nat)
  : option (option (list result)) :=
  let price_data :=
    if is_price_query then
      let pd := PriceRange.search_cheapest_by_weapon e w (Some limit) in
      if is_stattrak then Search.stattrak_only pd else pd
    else [] in
  match price_data with
  | _ :: _ => Some (Some price_data)
  | [] =>
    let matches := WeaponIndex.get (WeaponIndex.build_weapon_index e) (Py.lower w) in
    let matches := prefer_st is_stattrak matches in
    match matches with
    | [] => Some None
    | _ :: _ =>
      match records (unscored matches) with
      | None => None
      | Some results =>
        let results :=
          if is_price_query then Sort.sort_by Sort.by_price_asc results
          else Sort.sort_by by_name results in
        match results with
        | [] => Some None
        | _ :: _ => Some (Some (take limit results))
        end
      end
    end
  end.

(** Case 5: exact matches. *)
Definition case5 (q : string) (is_price_query is_stattrak : bool) (limit : nat)
  : option (option (list result)) :=
  match Match.exact_match e q with
  | [] => Some None
  | exact_matches =>
    let exact_matches := prefer_st is_stattrak exact_matches in
    match records (unscored exact_matches) with
    | None => None
    | Some results =>
      let results := if is_price_query then Sort.sort_by Sort.by_price_asc results else results in
      match results with
      | [] => Some None
      | _ :: _ => Some (Some (take limit results))
      end
    end
  end.

(** Case 6: fuzzy search, whose result is returned even when empty. *)
Definition case6 (q : string) (is_price_query is_stattrak : bool) (limit : nat)
  : option (list result) :=
  match Fuzzy.fuzzy_search extract e q (match limit with O => 20%nat | _ => limit end) with
  | None => None
  | Some [] => Some []
  | Some fuzzy_results =>
    let fuzzy_results := prefer_st_scored is_stattrak fuzzy_results in
    match records (map (fun p => (fst p, Some (snd p))) fuzzy_results) with
    | None => None
    | Some results =>
      let results :=
        if is_price_query then Sort.sort_by Sort.by_price_asc results
        else Sort.sort_by by_neg_match_score results in
      Some (take limit results)
    end
  end.

(** Chaining the cases: a returned answer or an exception ends [search]. *)
Definition next_case (c : option (option (list result))) (k : option (list result))
  : option (list result) :=
  match c with
  | None => None
  | Some (Some r) => Some r
  | Some None => k
  end.

(** The part of [search] after the hierarchical stage, on the raw query. *)
Definition search_rest (query : string) (limit : nat) : option (list result) :=
  let q := Search.search_query query in
  let '(is_price_query, _, _) := Price.detect_price_query q in
  let detected_weapon := Search.detected_weapon q in
  let is_stattrak := Search.is_stattrak q in
  match Search.price_cases e query with
  | Some rs => Some rs
  | None =>
    let after4 :=
      next_case (case5 q is_price_query is_stattrak limit)
        (case6 q is_price_query is_stattrak limit) in
    match detected_weapon with
    | Some w =>
      let skin_name := skin_name_of q w in
      if String.eqb skin_name "" then
        next_case (case4 w is_price_query is_stattrak limit) after4
      else
        next_case (case3 q w skin_name is_stattrak limit) after4
    | None => after4
    end
  end.

(** [search(query, limit)] with the engine's [_from_hierarchical] flag
    as state: the result ([None] when it raises) and the flag after the
    call.  [limit] is an int here; a [None] limit is not modelled. *)
Definition search (from_hierarchical : bool) (query : string) (limit : nat)
  : option (list result) * bool :=
  if from_hierarchical then (search_rest query limit, false)
  else
    match hierarchical query limit with
    | None => (None, true)
    | Some ((_ :: _) as hierarchical_results) => (Some hierarchical_results, true)
    | Some [] => (search_rest query limit, true)
    end.

End Engine.

End Engine.

(* ================================================================== *)
(** ** [format_search_results] with results *)

Module FormatFound.

Section FormatFound.

Variable fmt2 : Q -> string.
Variable fmt_int : Z -> string.
(** [f"{len(results)}"] *)
Variable fmt_nat : nat -> string.

(** [min(results, key=lambda x: x['min_price'])]: the first minimal item. *)
Fixpoint min_by_price (best : result) (rs : list result) : result :=
  match rs with
  | [] => best
  | r :: rs' => min_by_price (if Sort.Qltb (r_min_price r) (r_min_price best) then r else best) rs'
  end.

Definition footer : string :=
  Format.nl ++ Format.nl ++
  "Note: Prices and availability change frequently. For real-time information, check Skinport directly.".

(** The part of [format_search_results] after the [if not results:]
    block; [None] when it raises ([TypeError] on [max_price - 5] or on
    formatting [None] with [.2f]). *)
Definition format_found (results : list result) (query : string) : option string :=
  let query_lower := Py.lower query in
  let '(is_price_query, max_price, min_price) := Price.detect_price_query query in
  let is_stattrak := Py.any_in Match.st_terms query_lower in
  let detected_weapon := Format.detected_weapon query_lower in
  let is_limited := is_price_query && (Price.is_some max_price || Price.is_some min_price) &&
                    Nat.eqb (length results) 15 in
  let header :=
    "Found " ++ fmt_nat (length results) ++ " CS2 skin" ++
    (if Nat.eqb (length results) 1 then "" else "s") ++
    (if is_stattrak then " (StatTrak™)" else "") ++
    (match detected_weapon with Some w => " for " ++ w | None => "" end) ++
    (match max_price, min_price with
     | Some mx, Some mn => " between $" ++ fmt2 mn ++ " and $" ++ fmt2 mx
     | Some mx, None => " under $" ++ fmt2 mx
     | None, Some mn => " over $" ++ fmt2 mn
     | None, None => ""
     end) in
  let is_most_expensive_query :=
    Py.contains "most expensive" query_lower || Py.contains "highest price" query_lower ||
    Py.contains "priciest" query_lower in
  let stattrak_label := if is_stattrak then "StatTrak™ " else "" in
  let weapon_text := match detected_weapon with Some w => w | None => "" end in
  let header :=
    match results with
    | [] => header
    | r0 :: rs =>
      if is_most_expensive_query then
        header ++ Format.nl ++ "The most expensive " ++ stattrak_label ++ weapon_text ++
        " skin is " ++ item_name r0 ++ " at $" ++ fmt2 (r_min_price r0)
      else if Py.contains "cheapest" query_lower || Py.contains "lowest price" query_lower ||
              is_price_query then
        let cheapest_item := min_by_price r0 rs in
        header ++ Format.nl ++ "The cheapest " ++ stattrak_label ++ weapon_text ++
        " skin is " ++ item_name cheapest_item ++ " at $" ++ fmt2 (r_min_price cheapest_item)
      else header
    end in
  let limited_note :=
    if is_limited then
      match max_price with
      | None => None
      | Some mx =>
        Some (Format.nl ++ Format.nl ++
              "Note: I've shown the top 15 relevant skins. To see more specific results, try:" ++
              (match detected_weapon with
               | None => Format.nl ++ "• Adding a specific weapon (like 'AK-47 under $" ++ fmt2 mx ++ "')"
               | Some _ => ""
               end) ++
              Format.nl ++ "• Narrowing the price range (like 'between $" ++ fmt2 (mx - 5) ++
              " and $" ++ fmt2 mx ++ "')" ++
              Format.nl ++ "• Specifying a skin name (like '" ++
              (match detected_weapon with Some w => w | None => "AWP" end) ++ " Asiimov')")
      end
    else Some "" in
  match limited_note with
  | None => None
  | Some note =>
    Some ((header ++ note) ++ Format.nl ++ Format.nl ++
          Format.join (Format.nl ++ Format.nl) (map (Format.item_text fmt2 fmt_int) results) ++
          footer)
  end.

End FormatFound.

End FormatFound.

(* ================================================================== *)
(* ================================================================== *)
(** * Proofs *)

(** ** Weapon index *)

Module WeaponIndexFacts.
Import WeaponIndex.

Lemma append_to_keys (idx : index) k0 n :
  map fst (append_to idx k0 n) = map fst idx.
Proof.
  induction idx as [|[k1 l1] rest IH]; simpl; [reflexivity|].
  destruct (String.eqb k1 k0); simpl; now rewrite IH.
Qed.

Lemma get_append_to (idx : index) k0 n k :
  In k (map fst idx) ->
  get (append_to idx k0 n) k =
  if String.eqb k k0 then (get idx k ++ [n])%list else get idx k.
Proof.
  unfold get. induction idx as [|[k1 l1] rest IH]; simpl; [tauto|].
  intros Hin.
  destruct (String.eqb k1 k0) eqn:E10; simpl;
    destruct (String.eqb k1 k) eqn:E1; simpl.
  - apply String.eqb_eq in E10, E1; subst.
    now rewrite String.eqb_refl.
  - apply String.eqb_neq in E1.
    apply IH. destruct Hin as [Hk|Hk]; [congruence|exact Hk].
  - apply String.eqb_eq in E1; subst.
    now rewrite E10.
  - apply String.eqb_neq in E1.
    apply IH. destruct Hin as [Hk|Hk]; [congruence|exact Hk].
Qed.

Lemma get_not_key (idx : index) k :
  ~ In k (map fst idx) -> get idx k = [].
Proof.
  unfold get. induction idx as [|[k1 l1] rest IH]; simpl; [reflexivity|].
  intros Hn. destruct (String.eqb k1 k) eqn:E.
  - apply String.eqb_eq in E. tauto.
  - apply IH. tauto.
Qed.

Lemma first_match_find (il : string) ws :
  first_match il ws =
  match find (fun w => Py.contains (Py.lower w) il) ws with
  | Some w => Some (Py.lower w)
  | None => None
  end.
Proof.
  induction ws as [|w ws IH]; simpl; [reflexivity|].
  destruct (Py.contains (Py.lower w) il); [reflexivity|exact IH].
Qed.

Lemma classify_bucket (idx : index) n :
  classify idx n =
  match weapon_bucket n with
  | Some k => append_to idx k n
  | None => idx
  end.
Proof.
  unfold classify, weapon_bucket. rewrite first_match_find.
  destruct (_ || _); reflexivity.
Qed.

Lemma weapon_bucket_key n k :
  weapon_bucket n = Some k -> In k (map fst init_index).
Proof.
  unfold weapon_bucket, init_index.
  destruct (find _ _) as [w|] eqn:F; [|discriminate].
  intros H. injection H as <-.
  apply find_some in F. destruct F as [Hw _].
  rewrite map_map. exact (in_map (fun w => fst (Py.lower w, @nil string)) _ _ Hw).
Qed.

Definition in_bucket (k n : string) : bool :=
  match weapon_bucket n with
  | Some k' => String.eqb k' k
  | None => false
  end.

Lemma classify_keys (idx : index) n :
  map fst (classify idx n) = map fst idx.
Proof.
  rewrite classify_bucket. destruct (weapon_bucket n); [apply append_to_keys|reflexivity].
Qed.

Lemma fold_classify_get names (idx : index) k :
  In k (map fst idx) ->
  get (fold_left classify names idx) k = (get idx k ++ filter (in_bucket k) names)%list.
Proof.
  revert idx. induction names as [|n ns IH]; intros idx Hk; simpl.
  - now rewrite app_nil_r.
  - rewrite IH by (now rewrite classify_keys).
    rewrite classify_bucket. unfold in_bucket.
    destruct (weapon_bucket n) as [k0|].
    + rewrite get_append_to by exact Hk.
      rewrite (String.eqb_sym k0 k).
      destruct (String.eqb k k0); [now rewrite <- app_assoc|reflexivity].
    + reflexivity.
Qed.

Lemma fold_classify_keys names (idx : index) :
  map fst (fold_left classify names idx) = map fst idx.
Proof.
  revert idx. induction names as [|n ns IH]; intros idx; simpl; [reflexivity|].
  now rewrite IH, classify_keys.
Qed.

Lemma get_init k : get init_index k = [].
Proof.
  unfold get. destruct (find _ init_index) as [[k' l]|] eqn:F; [|reflexivity].
  apply find_some in F. destruct F as [F _].
  unfold init_index in F. apply in_map_iff in F. destruct F as [w [Hw _]].
  now injection Hw as _ <-.
Qed.

Lemma build_bucket_filter e k :
  get (build_weapon_index e) k = filter (in_bucket k) (item_names e).
Proof.
  unfold build_weapon_index.
  destruct (in_dec String.string_dec k (map fst init_index)) as [Hk|Hk].
  - rewrite fold_classify_get by exact Hk. now rewrite get_init.
  - rewrite get_not_key by (now rewrite fold_classify_keys).
    induction (item_names e) as [|n ns IH]; simpl; [reflexivity|].
    unfold in_bucket at 1.
    destruct (weapon_bucket n) as [k'|] eqn:B; [|exact IH].
    destruct (String.eqb k' k) eqn:E; [|exact IH].
    apply String.eqb_eq in E; subst. apply weapon_bucket_key in B. tauto.
Qed.

Lemma bucket_names e k n :
  In n (get (build_weapon_index e) k) -> In n (item_names e).
Proof. rewrite build_bucket_filter, filter_In. tauto. Qed.

End WeaponIndexFacts.

(** Claim C8: after loading, an item name lies in the bucket of the
    weapon index exactly when that bucket is the lower-cased first entry
    of the ordered weapon list occurring (case-insensitively) in the
    name; hence the buckets are pairwise disjoint, and (the names being
    dict keys) each bucket lists a name at most once. *)
Theorem weapon_index_first_match (e : engine) (Hnd : NoDup (item_names e)) :
  (forall k n, In n (WeaponIndex.get (WeaponIndex.build_weapon_index e) k) <->
               In n (item_names e) /\ WeaponIndex.weapon_bucket n = Some k) /\
  (forall k1 k2 n, In n (WeaponIndex.get (WeaponIndex.build_weapon_index e) k1) ->
                   In n (WeaponIndex.get (WeaponIndex.build_weapon_index e) k2) ->
                   k1 = k2) /\
  (forall k, NoDup (WeaponIndex.get (WeaponIndex.build_weapon_index e) k)).
Proof.
  assert (Hm : forall k n, In n (WeaponIndex.get (WeaponIndex.build_weapon_index e) k) <->
               In n (item_names e) /\ WeaponIndex.weapon_bucket n = Some k).
  { intros k n. rewrite WeaponIndexFacts.build_bucket_filter, filter_In.
    unfold WeaponIndexFacts.in_bucket.
    destruct (WeaponIndex.weapon_bucket n) as [k'|]; split; intros [H1 H2];
      split; try exact H1; try discriminate.
    - apply String.eqb_eq in H2. now subst.
    - injection H2 as ->. apply String.eqb_refl. }
  split; [exact Hm|split].
  - intros k1 k2 n H1 H2. apply Hm in H1, H2.
    destruct H1 as [_ H1], H2 as [_ H2]. congruence.
  - intros k. rewrite WeaponIndexFacts.build_bucket_filter. now apply NoDup_filter.
Qed.

Lemma weapon_index_first_match_witness :
  let e := mk_engine [("AK-47 | Redline (Field-Tested)", sample_item 12);
                      ("StatTrak™ M4A4 | Howl (Factory New)", sample_item 900)] in
  NoDup (item_names e) /\
  WeaponIndex.get (WeaponIndex.build_weapon_index e) "m4a4"
    = ["StatTrak™ M4A4 | Howl (Factory New)"] /\
  (forall k1 k2 n, In n (WeaponIndex.get (WeaponIndex.build_weapon_index e) k1) ->
                   In n (WeaponIndex.get (WeaponIndex.build_weapon_index e) k2) ->
                   k1 = k2).
Proof.
  intros e.
  assert (Hnd : NoDup (item_names e)).
  { constructor; [simpl; intros [H|[]]; discriminate|].
    constructor; [intros []|constructor]. }
  split; [exact Hnd|split; [vm_compute; reflexivity|]].
  exact (proj1 (proj2 (weapon_index_first_match e Hnd))).
Defined.

(** ** [exact_match] *)

Module MatchFacts.
Import Match.

Lemma nonempty_first {A} (l r : list A) x :
  In x l -> match l with _ :: _ => l | [] => r end = l.
Proof. destruct l; [intros []|reflexivity]. Qed.

Lemma sel_In {A} (P : A -> Prop) (l r : list A) :
  (forall x, In x l -> P x) -> (forall x, In x r -> P x) ->
  forall x, In x (match l with _ :: _ => l | [] => r end) -> P x.
Proof. destruct l; auto. Qed.

Lemma filter_names_In e f n :
  In n (filter f (item_names e)) -> In n (item_names e).
Proof. intros H. apply filter_In in H. tauto. Qed.

Lemma parsed_subset e q n :
  In n (match_by_parsed_components e q) -> In n (item_names e).
Proof.
  unfold match_by_parsed_components.
  destruct (Py.any_in st_terms q); cbv beta iota zeta;
  match goal with |- context [find_alias ?x weapon_names] =>
    destruct (find_alias x weapon_names) as [[? ?]|] end; cbv beta iota zeta;
  match goal with |- context [find_alias ?x wear_conditions] =>
    destruct (find_alias x wear_conditions) as [[? ?]|] end; cbv beta iota zeta;
  (destruct (negb _); [intros []|apply filter_names_In]).
Qed.

Lemma exact_match_subset e query n :
  In n (exact_match e query) -> In n (item_names e).
Proof.
  unfold exact_match. cbv zeta. revert n.
  apply sel_In; [intros; eapply filter_names_In; eassumption|].
  apply sel_In; [apply parsed_subset|].
  apply sel_In; intros; eapply filter_names_In; eassumption.
Qed.

End MatchFacts.

(** Claim C2 (as amended): when some catalog name equals the lower-cased,
    stripped query case-insensitively (or equals it after ["stattrak"]
    is rewritten to ["stattrak™"]), [exact_match] returns exactly those
    names; it always returns catalog names, but with no such name it
    falls back to component, prefix and substring matching. *)
Theorem exact_match_equal_names (e : engine) (query : string) :
  let q := Py.strip (Py.lower query) in
  let key n := Match.exact_key q (Match.query_is_stattrak q) (Py.lower n) in
  ((exists n0, In n0 (item_names e) /\ key n0 = true) ->
   forall n, In n (Match.exact_match e query) <-> In n (item_names e) /\ key n = true) /\
  (forall n, In n (Match.exact_match e query) -> In n (item_names e)).
Proof.
  intros q key. split.
  - intros [n0 [Hn0 Hk0]] n.
    unfold Match.exact_match. cbv zeta. fold q.
    assert (Hin : In n0 (filter key (item_names e))) by (apply filter_In; auto).
    unfold key in Hin. rewrite (MatchFacts.nonempty_first _ _ _ Hin).
    apply filter_In.
  - apply MatchFacts.exact_match_subset.
Qed.

Lemma exact_match_equal_names_witness :
  let e := mk_engine [("AK-47 | Redline (Field-Tested)", sample_item 12);
                      ("StatTrak™ AK-47 | Redline (Field-Tested)", sample_item 30)] in
  let q := Py.strip (Py.lower " ak-47 | REDLINE (field-tested)") in
  (exists n0, In n0 (item_names e) /\
     Match.exact_key q (Match.query_is_stattrak q) (Py.lower n0) = true) /\
  (forall n, In n (Match.exact_match e " ak-47 | REDLINE (field-tested)") <->
     In n (item_names e) /\ Match.exact_key q (Match.query_is_stattrak q) (Py.lower n) = true).
Proof.
  intros e q.
  assert (H : exists n0, In n0 (item_names e) /\
            Match.exact_key q (Match.query_is_stattrak q) (Py.lower n0) = true).
  { exists "AK-47 | Redline (Field-Tested)". split; [left; reflexivity|vm_compute; reflexivity]. }
  split; [exact H|].
  exact (proj1 (exact_match_equal_names e " ak-47 | REDLINE (field-tested)") H).
Defined.

(** Claim C2 fails as stated: on a one-item catalog the query ["ak-47"]
    has no equal name, and [exact_match] returns a name that merely
    contains it (found by the component stage). *)
Lemma exact_match_returns_containing_name :
  let e := mk_engine [("AK-47 | Redline (Field-Tested)", sample_item 12)] in
  Match.exact_match e "ak-47" = ["AK-47 | Redline (Field-Tested)"] /\
  Py.lower "AK-47 | Redline (Field-Tested)" <> Py.strip (Py.lower "ak-47").
Proof. split; vm_compute; [reflexivity|discriminate]. Qed.

(** Claim C10: a query containing ["stattrak"] finds a catalog name
    written with ["StatTrak™"] whose lower-cased form is the query with
    ["stattrak"] rewritten to ["stattrak™"]. *)
Theorem exact_match_trademark_tolerant (e : engine) (query n : string)
  (Hn : In n (item_names e))
  (Hq : Py.contains "stattrak" (Py.strip (Py.lower query)) = true)
  (Htm : Py.contains "stattrak™" (Py.lower n) = true)
  (Heq : Py.lower n = Py.replace (Py.strip (Py.lower query)) "stattrak" "stattrak™") :
  In n (Match.exact_match e query).
Proof.
  unfold Match.exact_match. cbv zeta.
  set (q := Py.strip (Py.lower query)) in *.
  assert (Hst : Match.query_is_stattrak q = true)
    by (unfold Match.query_is_stattrak; rewrite Hq; now rewrite orb_true_r).
  assert (Hin : In n (filter (fun n => Match.exact_key q (Match.query_is_stattrak q) (Py.lower n))
                             (item_names e))).
  { apply filter_In. split; [exact Hn|].
    unfold Match.exact_key. rewrite Hst, Hq, Htm, Heq, String.eqb_refl.
    now rewrite orb_true_r. }
  rewrite (MatchFacts.nonempty_first _ _ _ Hin). exact Hin.
Qed.

Lemma exact_match_trademark_tolerant_witness :
  let e := mk_engine [("StatTrak™ AK-47 | Redline (Field-Tested)", sample_item 30)] in
  In "StatTrak™ AK-47 | Redline (Field-Tested)"
     (Match.exact_match e "StatTrak AK-47 | Redline (Field-Tested)").
Proof.
  intros e.
  apply (exact_match_trademark_tolerant e "StatTrak AK-47 | Redline (Field-Tested)"
           "StatTrak™ AK-47 | Redline (Field-Tested)");
    [left; reflexivity|vm_compute; reflexivity|vm_compute; reflexivity|vm_compute; reflexivity].
Defined.

(** ** Normalization *)

(** Claim C4 (code bug): re-normalizing a normalized query changes it;
    the synonym ["st"] is rewritten inside its own replacement
    ["stattrak"]. *)
Lemma correct_spelling_not_idempotent :
  Spelling.correct_spelling "stattrak" = "stattrakattrak" /\
  Spelling.correct_spelling (Spelling.correct_spelling "stattrak") = "stattrakattrakattrak".
Proof. split; vm_compute; reflexivity. Qed.

(** ** Price intent *)

(** Claim C6 (as amended): the between pattern is tried before any
    single-bound pattern; when it matches with bounds A and B not both
    zero the result is [max = B], [min = A].  When no bound is non-zero
    after the first stage (the between pattern matches with A = B = 0, or
    it does not match and neither single-bound pattern gives a non-zero
    bound) and the query contains ["price"] or ["$"], the window
    [0.9 X .. 1.1 X] is taken around the first number X of the query
    (with or without ["$"]). *)
Theorem detect_price_query_between_first (query : string) :
  let q := Py.lower query in
  (forall a b, Regex.search Price.between_pattern q = Some [a; b] ->
     ~ (Regex.decimal_value a == 0 /\ Regex.decimal_value b == 0) ->
     Price.detect_price_query query =
       (true, Some (Regex.decimal_value b), Some (Regex.decimal_value a))) /\
  (forall x rest,
     (forall a b gs, Regex.search Price.between_pattern q = Some (a :: b :: gs) ->
        Regex.decimal_value a == 0 /\ Regex.decimal_value b == 0) ->
     (Regex.search Price.between_pattern q = None ->
        Price.truthy (Price.first_bound Price.under_patterns q) = false /\
        Price.truthy (Price.first_bound Price.over_patterns q) = false) ->
     Py.contains "price" q || Py.contains "$" q = true ->
     Regex.search Price.dollar_pattern q = Some (x :: rest) ->
     Price.detect_price_query query =
       (true, Some (Regex.decimal_value x * (11 # 10)),
              Some (Regex.decimal_value x * (9 # 10)))).
Proof.
  intros q. split.
  - intros a b Hb Hnz. unfold Price.detect_price_query. fold q. rewrite Hb.
    cbv beta iota zeta.
    assert (Ht : Price.truthy (Some (Regex.decimal_value b)) ||
                 Price.truthy (Some (Regex.decimal_value a)) = true).
    { unfold Price.truthy.
      destruct (Qeq_bool (Regex.decimal_value b) 0) eqn:Eb;
      destruct (Qeq_bool (Regex.decimal_value a) 0) eqn:Ea; try reflexivity.
      apply Qeq_bool_eq in Eb, Ea. tauto. }
    now rewrite Ht.
  - intros x rest Hz Hn Hk Hd. unfold Price.detect_price_query. fold q.
    destruct (Regex.search Price.between_pattern q) as [[|a [|b gs]]|] eqn:Hb;
      cbv beta iota zeta.
    + rewrite Hd. simpl. now rewrite Hk.
    + rewrite Hd. simpl. now rewrite Hk.
    + destruct (Hz a b gs eq_refl) as [Ha Hb0]. unfold Price.truthy.
      apply Qeq_bool_iff in Ha, Hb0. rewrite Ha, Hb0. simpl. rewrite Hd. now rewrite Hk.
    + destruct (Hn eq_refl) as [Hu Ho]. rewrite Hu, Ho. simpl. rewrite Hd. now rewrite Hk.
Qed.

Lemma detect_price_query_between_first_witness :
  Price.detect_price_query "AWP between $50 and $100" = (true, Some (100 # 1), Some (50 # 1)) /\
  Price.detect_price_query "awp price 20" = (true, Some ((20 # 1) * (11 # 10)), Some ((20 # 1) * (9 # 10))) /\
  Price.detect_price_query "price between 0 and 0" = (true, Some (0 * (11 # 10)), Some (0 * (9 # 10))).
Proof.
  split; [|split].
  - apply (proj1 (detect_price_query_between_first "AWP between $50 and $100") "50" "100");
      [vm_compute; reflexivity|].
    vm_compute. intros [H _]. discriminate H.
  - apply (proj2 (detect_price_query_between_first "awp price 20") "20" []);
      [vm_compute; discriminate|vm_compute; split; reflexivity|vm_compute; reflexivity
      |vm_compute; reflexivity].
  - apply (proj2 (detect_price_query_between_first "price between 0 and 0") "0" []);
      [vm_compute; intros a b gs H; injection H as <- <- _; split; reflexivity
      |vm_compute; discriminate|vm_compute; reflexivity|vm_compute; reflexivity].
Defined.

(** Claim C6 fails as stated: in ["ak47 $10"] the bare-amount pattern
    captures the ["47"] of the weapon alias, so the window is
    [42.3 .. 51.7], not [9 .. 11]. *)
Lemma detect_price_query_dollar_window_elsewhere :
  Price.detect_price_query "ak47 $10" = (true, Some (517 # 10), Some (423 # 10)) /\
  ~ (423 # 10 == (10 # 1) * (9 # 10)).
Proof. split; [vm_compute; reflexivity|vm_compute; discriminate]. Qed.

(** ** Sorting *)

Module SortFacts.
Import Sort.

Section Insertion.
Variable A : Type.
Variable lt : A -> A -> bool.
Variable le : A -> A -> Prop.
Hypothesis lt_le : forall x y, lt x y = true -> le x y.
Hypothesis not_lt_le : forall x y, lt x y = false -> le y x.

Lemma insert_by_In x y l : In y (insert_by lt x l) <-> x = y \/ In y l.
Proof.
  induction l as [|z l IH]; simpl; [tauto|].
  destruct (lt x z); simpl; [tauto|]. rewrite IH. tauto.
Qed.

Lemma sort_by_In_aux l acc y :
  In y (fold_left (fun acc x => insert_by lt x acc) l acc) <-> In y acc \/ In y l.
Proof.
  revert acc. induction l as [|x l IH]; intros acc; simpl; [tauto|].
  rewrite IH, insert_by_In. tauto.
Qed.

Lemma sort_by_In l y : In y (sort_by lt l) <-> In y l.
Proof. unfold sort_by. rewrite sort_by_In_aux. simpl. tauto. Qed.

Lemma insert_by_HdRel x y l :
  HdRel le y l -> le y x -> HdRel le y (insert_by lt x l).
Proof.
  intros H Hyx. destruct l as [|z l]; simpl; [now constructor|].
  destruct (lt x z); constructor; [exact Hyx|]. now inversion H.
Qed.

Lemma insert_by_sorted x l : Sorted le l -> Sorted le (insert_by lt x l).
Proof.
  induction l as [|y l IH]; intros H; simpl; [now repeat constructor|].
  destruct (lt x y) eqn:E.
  - constructor; [exact H|]. constructor. now apply lt_le.
  - apply Sorted_inv in H. destruct H as [Hl Hy].
    constructor; [now apply IH|]. apply insert_by_HdRel; [exact Hy|]. now apply not_lt_le.
Qed.

Lemma sort_by_sorted l : Sorted le (sort_by lt l).
Proof.
  unfold sort_by.
  assert (G : forall acc, Sorted le acc ->
              Sorted le (fold_left (fun acc x => insert_by lt x acc) l acc)).
  { induction l as [|x l IH]; intros acc Hacc; simpl; [exact Hacc|].
    apply IH. now apply insert_by_sorted. }
  apply G. constructor.
Qed.

Lemma firstn_sorted n l : Sorted le l -> Sorted le (firstn n l).
Proof.
  revert n. induction l as [|x l IH]; intros n H; destruct n; simpl;
    [constructor|constructor|constructor|].
  apply Sorted_inv in H. destruct H as [Hl Hx].
  constructor; [now apply IH|].
  destruct l as [|y l]; destruct n; simpl; constructor. now inversion Hx.
Qed.

End Insertion.

Lemma Qltb_true a b : Qltb a b = true -> a <= b.
Proof.
  unfold Qltb. intros H. apply negb_true_iff in H.
  destruct (Qlt_le_dec b a) as [Hba|Hab]; [|exact Hab].
  apply Qlt_le_weak, Qle_bool_iff in Hba. congruence.
Qed.

Lemma Qltb_false a b : Qltb a b = false -> b <= a.
Proof.
  unfold Qltb. intros H. apply negb_false_iff in H. now apply Qle_bool_iff.
Qed.

Definition asc (a b : result) : Prop := r_min_price a <= r_min_price b.
Definition desc (a b : result) : Prop := r_min_price b <= r_min_price a.

Lemma sort_asc_sorted n l : Sorted asc (firstn n (sort_by by_price_asc l)).
Proof.
  apply firstn_sorted, sort_by_sorted.
  - intros x y H. now apply Qltb_true.
  - intros x y H. now apply Qltb_false.
Qed.

Lemma sort_neg_sorted n l : Sorted desc (firstn n (sort_by by_neg_price l)).
Proof.
  apply firstn_sorted, sort_by_sorted.
  - intros x y H. apply Qltb_true in H. unfold desc. now apply Qopp_le_compat in H; rewrite !Qopp_involutive in H.
  - intros x y H. apply Qltb_false in H. unfold desc. now apply Qopp_le_compat in H; rewrite !Qopp_involutive in H.
Qed.

Lemma sort_rev_sorted n l : Sorted desc (firstn n (sort_by by_price_rev l)).
Proof.
  apply firstn_sorted, sort_by_sorted.
  - intros x y H. now apply Qltb_true in H.
  - intros x y H. now apply Qltb_false in H.
Qed.

End SortFacts.

(** ** Price-range filter *)

Module RangeFacts.
Import PriceRange.

Lemma collect_In {A B} (f : A -> option B) l y :
  In y (collect f l) -> exists x, In x l /\ f x = Some y.
Proof.
  induction l as [|x l IH]; simpl; [intros []|].
  destruct (f x) eqn:E; [intros [H|H]|intros H].
  - subst. eauto.
  - destruct (IH H) as [x' [H1 H2]]. eauto.
  - destruct (IH H) as [x' [H1 H2]]. eauto.
Qed.

Lemma firstn_In_l {A} n (l : list A) x : In x (firstn n l) -> In x l.
Proof.
  intros H. rewrite <- (firstn_skipn n l). apply in_or_app. now left.
Qed.

Lemma price_record_fields n it sc r :
  price_record n it sc = Some r ->
  item_name r = n /\ read_price (min_price it) = Some (r_min_price r).
Proof.
  unfold price_record.
  destruct (read_price (min_price it)); [|discriminate].
  destruct (read_price (max_price it)); [|discriminate].
  destruct (read_price (suggested_price it)); [|discriminate].
  intros H. injection H as <-. simpl. auto.
Qed.

Lemma range_entry_spec e mx mn n r :
  range_entry e mx mn n = Some r ->
  exists it, lookup_item e n = Some it /\ item_name r = n /\
    current_price_of it = Some (r_min_price r) /\
    mn <= r_min_price r /\ (forall m, mx = Some m -> r_min_price r <= m).
Proof.
  unfold range_entry.
  destruct (lookup_item e n) as [it|]; [|discriminate].
  destruct (excluded n); [discriminate|].
  destruct (current_price_of it) as [cp|] eqn:Ecp; [|discriminate].
  destruct (match mx with Some m => Qle_bool cp m | None => true end) eqn:Emx;
    [|discriminate].
  destruct (Qle_bool mn cp) eqn:Emn; [|discriminate].
  intros Hr. apply price_record_fields in Hr. destruct Hr as [Hn Hp].
  unfold current_price_of in Ecp. rewrite Ecp in Hp. injection Hp as Hp.
  exists it. repeat split; auto.
  - unfold current_price_of. now rewrite Ecp, Hp.
  - rewrite <- Hp. now apply Qle_bool_iff.
  - intros m ->. rewrite <- Hp. now apply Qle_bool_iff.
Qed.

Lemma search_by_price_range_In e w mx mn r :
  In r (search_by_price_range e w mx mn) ->
  exists n, In n (item_names e) /\ range_entry e mx mn n = Some r.
Proof.
  unfold search_by_price_range. cbv zeta.
  set (names := match weapon_given w with
                | Some w0 => WeaponIndex.get (WeaponIndex.build_weapon_index e) (Py.lower w0)
                | None => item_names e end).
  assert (Hsub : forall n, In n names -> In n (item_names e)).
  { intros n. unfold names. destruct (weapon_given w); [|auto].
    apply WeaponIndexFacts.bucket_names. }
  destruct names as [|n0 ns] eqn:En; [intros []|].
  intros H. apply firstn_In_l in H.
  repeat match type of H with
  | In _ (if ?b then _ else _) => destruct b
  end; apply SortFacts.sort_by_In in H; apply collect_In in H;
  destruct H as [n [Hn Hr]]; exists n; split; auto; apply Hsub; now rewrite En.
Qed.

End RangeFacts.

(** Claim C1 (as amended): every item [search_by_price_range] returns
    has the price [p] that [float(item.get('min_price', '999999'))]
    reads, with [min <= p], and [p <= max] when an upper bound is given.
    An unparseable [min_price] excludes the item; an absent one is read
    as [999999] and is not excluded for that reason. *)
Theorem search_by_price_range_bounds (e : engine) (weapon_type : option string)
    (max_price : option Q) (min_price : Q) (r : result)
    (Hr : In r (PriceRange.search_by_price_range e weapon_type max_price min_price)) :
  exists it, lookup_item e (item_name r) = Some it /\
    PriceRange.current_price_of it = Some (r_min_price r) /\
    min_price <= r_min_price r /\
    (forall m, max_price = Some m -> r_min_price r <= m).
Proof.
  apply RangeFacts.search_by_price_range_In in Hr.
  destruct Hr as [n [_ Hn]].
  apply RangeFacts.range_entry_spec in Hn.
  destruct Hn as [it [Hl [Hname Hrest]]].
  exists it. rewrite Hname. auto.
Qed.

Lemma search_by_price_range_bounds_witness :
  let e := mk_engine [("AWP | Safari Mesh (Field-Tested)", sample_item 75);
                      ("AWP | Pit Viper (Field-Tested)", sample_item (4999 # 100));
                      ("AWP | Worm God (Field-Tested)", sample_item 101)] in
  let r := mk_result "AWP | Safari Mesh (Field-Tested)" 75 75 75 1 None in
  In r (PriceRange.search_by_price_range e (Some "AWP") (Some 100) 50) /\
  exists it, lookup_item e (item_name r) = Some it /\
    PriceRange.current_price_of it = Some (r_min_price r) /\
    50 <= r_min_price r /\ (forall m, Some 100 = Some m -> r_min_price r <= m).
Proof.
  intros e r.
  assert (H : In r (PriceRange.search_by_price_range e (Some "AWP") (Some 100) 50))
    by (vm_compute; left; reflexivity).
  split; [exact H|].
  exact (search_by_price_range_bounds e (Some "AWP") (Some 100) 50 r H).
Defined.

(** Claim C1 fails as stated: an item without a [min_price] is returned
    (at the default price [999999]) by a query without upper bound. *)
Lemma search_by_price_range_returns_absent_price :
  let e := mk_engine [("AK-47 | Redline (Field-Tested)", mk_item PAbsent PAbsent PAbsent None)] in
  PriceRange.search_by_price_range e None None 5 =
    [mk_result "AK-47 | Redline (Field-Tested)" (999999 # 1) (999999 # 1) (999999 # 1) 0 None] /\
  min_price (mk_item PAbsent PAbsent PAbsent None) = PAbsent.
Proof. split; vm_compute; reflexivity. Qed.

(** ** Result ordering *)

Module OrderFacts.
Import PriceRange SortFacts.

Lemma Qltb_0_pos mn : 0 < mn -> Sort.Qltb 0 mn = true.
Proof.
  intros H. unfold Sort.Qltb. apply negb_true_iff.
  destruct (Qle_bool mn 0) eqn:E; [|reflexivity].
  apply Qle_bool_iff in E. exfalso. now apply (Qlt_not_le 0 mn).
Qed.

Lemma Qltb_0_nonpos mn : mn <= 0 -> Sort.Qltb 0 mn = false.
Proof.
  intros H. unfold Sort.Qltb. apply negb_false_iff. now apply Qle_bool_iff.
Qed.

Lemma length_firstn_le {A} n (l : list A) : (length (firstn n l) <= n)%nat.
Proof. rewrite length_firstn. lia. Qed.

Lemma range_shape e w mx mn :
  PriceRange.search_by_price_range e w mx mn = [] \/
  exists l, PriceRange.search_by_price_range e w mx mn =
    firstn 15 (if Price.is_some mx && Sort.Qltb 0 mn then Sort.sort_by Sort.by_price_asc l
               else if Price.is_some mx then Sort.sort_by Sort.by_neg_price l
               else if Sort.Qltb 0 mn then Sort.sort_by Sort.by_price_asc l
               else Sort.sort_by Sort.by_price_asc l).
Proof.
  unfold PriceRange.search_by_price_range. cbv zeta.
  destruct (match weapon_given w with
            | Some w0 => WeaponIndex.get (WeaponIndex.build_weapon_index e) (Py.lower w0)
            | None => item_names e end); [now left|right]. eauto.
Qed.

End OrderFacts.

(** Claim C7 (as amended): [search_by_price_range] returns at most 15
    items, sorted ascending when a positive lower bound is given or no
    upper bound is given, and descending when an upper bound is given
    with a lower bound [<= 0] (so ["between 0 and B"] sorts descending
    like ["under B"]); the cheapest / most-expensive searches with the
    limit 25 that [search] uses return at most 25 items sorted
    ascending / descending. *)
Theorem price_results_order (e : engine) :
  (forall w mx mn,
     let res := PriceRange.search_by_price_range e w mx mn in
     (length res <= 15)%nat /\
     (Price.is_some mx = true -> 0 < mn -> Sorted SortFacts.asc res) /\
     (Price.is_some mx = true -> mn <= 0 -> Sorted SortFacts.desc res) /\
     (mx = None -> Sorted SortFacts.asc res)) /\
  (forall wt, let res := PriceRange.search_cheapest_by_weapon e wt (Some 25%nat) in
     (length res <= 25)%nat /\ Sorted SortFacts.asc res) /\
  (forall wt, let res := PriceRange.search_most_expensive_by_weapon e wt (Some 25%nat) in
     (length res <= 25)%nat /\ Sorted SortFacts.desc res) /\
  (forall st, let res := PriceRange.cheapest_all e st in
     (length res <= 25)%nat /\ Sorted SortFacts.asc res) /\
  (forall st, let res := PriceRange.most_expensive_all e st in
     (length res <= 25)%nat /\ Sorted SortFacts.desc res).
Proof.
  split; [|split; [|split; [|split]]].
  - intros w mx mn res.
    destruct (OrderFacts.range_shape e w mx mn) as [E|[l E]]; unfold res; rewrite E.
    + split; [simpl; lia|]. repeat split; intros; constructor.
    + split; [apply OrderFacts.length_firstn_le|].
      split; [|split].
      * intros Hm Hpos. rewrite Hm, (OrderFacts.Qltb_0_pos _ Hpos). apply SortFacts.sort_asc_sorted.
      * intros Hm Hneg. rewrite Hm, (OrderFacts.Qltb_0_nonpos _ Hneg). apply SortFacts.sort_neg_sorted.
      * intros ->. cbn [Price.is_some andb]. destruct (Sort.Qltb 0 mn); apply SortFacts.sort_asc_sorted.
  - intros wt res. unfold res, PriceRange.search_cheapest_by_weapon. cbv zeta.
    destruct (WeaponIndex.get _ _); [split; [simpl; lia|constructor]|].
    split; [apply OrderFacts.length_firstn_le|apply SortFacts.sort_asc_sorted].
  - intros wt res. unfold res, PriceRange.search_most_expensive_by_weapon. cbv zeta.
    destruct (WeaponIndex.get _ _); [split; [simpl; lia|constructor]|].
    split; [apply OrderFacts.length_firstn_le|apply SortFacts.sort_rev_sorted].
  - intros st res. unfold res, PriceRange.cheapest_all.
    split; [apply OrderFacts.length_firstn_le|apply SortFacts.sort_asc_sorted].
  - intros st res. unfold res, PriceRange.most_expensive_all.
    split; [apply OrderFacts.length_firstn_le|apply SortFacts.sort_rev_sorted].
Qed.

Lemma price_results_order_witness :
  let e := mk_engine [("AWP | Safari Mesh (Field-Tested)", sample_item 75);
                      ("AWP | Pit Viper (Field-Tested)", sample_item 60)] in
  Sorted SortFacts.asc (PriceRange.search_by_price_range e (Some "AWP") (Some 100) 50) /\
  map item_name (PriceRange.search_by_price_range e (Some "AWP") (Some 100) 50) =
    ["AWP | Pit Viper (Field-Tested)"; "AWP | Safari Mesh (Field-Tested)"].
Proof.
  intros e. split; [|vm_compute; reflexivity].
  apply (proj1 (proj2 (proj1 (price_results_order e) (Some "AWP") (Some 100) 50)));
    [reflexivity|reflexivity].
Defined.

(** Claim C7 fails as stated: ["between 0 and 10"] is a two-bound query,
    yet [search] passes [min_price or 0 = 0] and the results come back
    sorted descending. *)
Lemma between_zero_sorted_descending :
  let e := mk_engine [("AK-47 | Slate (Field-Tested)", sample_item 3);
                      ("AK-47 | Redline (Field-Tested)", sample_item 7)] in
  Price.detect_price_query "between 0 and 10" = (true, Some (10 # 1), Some (0 # 1)) /\
  map item_name (PriceRange.search_by_price_range e None (Some (10 # 1)) 0) =
    ["AK-47 | Redline (Field-Tested)"; "AK-47 | Slate (Field-Tested)"] /\
  ~ Sorted SortFacts.asc (PriceRange.search_by_price_range e None (Some (10 # 1)) 0).
Proof.
  split; [vm_compute; reflexivity|split; [vm_compute; reflexivity|]].
  vm_compute. intros H. apply Sorted_inv in H. destruct H as [_ H].
  inversion H as [|? ? Hle]. apply Hle. reflexivity.
Qed.

(** ** Hierarchical search *)

(** Claim C3 (as amended): when the exact stage or the component stage
    yields names, [hierarchical_search] does not depend on the fuzzy
    matcher; when the exact stage yields names of which at least one has
    parseable prices, the result is those names' records (cut to
    [limit]).  If none of the exact names has parseable prices, the
    price-intent fallback may answer instead. *)
Theorem hierarchical_search_exact_first (fz1 fz2 : Hierarchical.fuzzy_fn) (e : engine)
    (query : string) (limit : nat) :
  let q := Py.strip (Py.lower query) in
  ((Match.exact_match e q <> [] \/ Match.match_by_parsed_components e q <> []) ->
   Hierarchical.hierarchical_search fz1 e query limit =
   Hierarchical.hierarchical_search fz2 e query limit) /\
  (Match.exact_match e q <> [] ->
   PriceRange.collect (Hierarchical.scored_record e) (Match.exact_match e q) <> [] ->
   Hierarchical.hierarchical_search fz1 e query limit =
   firstn limit (PriceRange.collect (Hierarchical.scored_record e) (Match.exact_match e q))).
Proof.
  intros q. unfold Hierarchical.hierarchical_search. cbv zeta. fold q. split.
  - intros H. destruct (Match.exact_match e q) as [|x xs].
    + destruct H as [H|H]; [congruence|].
      destruct (Match.match_by_parsed_components e q) as [|y ys]; [congruence|reflexivity].
    + reflexivity.
  - intros H Hr. destruct (Match.exact_match e q) as [|x xs]; [congruence|].
    destruct (PriceRange.collect _ (x :: xs)) as [|r rs]; [congruence|reflexivity].
Qed.

Lemma hierarchical_search_exact_first_witness :
  let e := mk_engine [("AK-47 | Redline (Field-Tested)", sample_item 12)] in
  Hierarchical.hierarchical_search (fun _ _ => []) e "AK-47 | Redline (Field-Tested)" 10 =
  Hierarchical.hierarchical_search (fun q _ => [(q, 100%Z)]) e "AK-47 | Redline (Field-Tested)" 10.
Proof.
  intros e.
  apply (proj1 (hierarchical_search_exact_first (fun _ _ => []) (fun q _ => [(q, 100%Z)])
                  e "AK-47 | Redline (Field-Tested)" 10)).
  left. vm_compute. discriminate.
Defined.

(** Claim C3 fails as stated: the exact stage yields ["Under 5 Club"]
    for ["under 5"], but its price is unparseable, so the price-intent
    fallback answers with an item that is not an exact match. *)
Lemma hierarchical_search_exact_not_kept :
  let e := mk_engine [("Under 5 Club", mk_item PBad PBad PBad None);
                      ("AWP | Safari Mesh (Field-Tested)", sample_item 3)] in
  Match.exact_match e (Py.strip (Py.lower "under 5")) = ["Under 5 Club"] /\
  map item_name (Hierarchical.hierarchical_search (fun _ _ => []) e "under 5" 10) =
    ["AWP | Safari Mesh (Field-Tested)"].
Proof. split; vm_compute; reflexivity. Qed.

(** ** StatTrak detection in [search] *)

Module SearchFacts.

Lemma stattrak_only_In rs r :
  In r (Search.stattrak_only rs) -> Match.is_stattrak_name (Py.lower (item_name r)) = true.
Proof. unfold Search.stattrak_only. rewrite filter_In. tauto. Qed.

Lemma all_items_stattrak e r :
  In r (PriceRange.all_items e true) -> Match.is_stattrak_name (Py.lower (item_name r)) = true.
Proof.
  unfold PriceRange.all_items. intros H. apply RangeFacts.collect_In in H.
  destruct H as [n [_ H]]. simpl in H.
  destruct (Match.is_stattrak_name (Py.lower n)) eqn:E; [|discriminate].
  unfold record_of in H. destruct (lookup_item e n) as [it|]; [|discriminate].
  apply RangeFacts.price_record_fields in H. destruct H as [Hn _]. now rewrite Hn.
Qed.

Lemma sorted_all_items_stattrak e lt n r :
  In r (firstn n (Sort.sort_by lt (PriceRange.all_items e true))) ->
  Match.is_stattrak_name (Py.lower (item_name r)) = true.
Proof.
  intros H. apply RangeFacts.firstn_In_l, SortFacts.sort_by_In in H.
  now apply all_items_stattrak in H.
Qed.

Definition all_st (rs : list result) : Prop :=
  forall r, In r rs -> Match.is_stattrak_name (Py.lower (item_name r)) = true.

Lemma filtered_case l rs :
  match Search.stattrak_only l with [] => None | _ :: _ => Some (Search.stattrak_only l) end
    = Some rs -> all_st rs.
Proof.
  destruct (Search.stattrak_only l) as [|x l'] eqn:E; [discriminate|].
  intros H. injection H as <-. rewrite <- E. intros r. apply stattrak_only_In.
Qed.

Lemma range_case_stattrak e q rs :
  Search.is_stattrak q = true -> Search.range_case e q = Some rs -> all_st rs.
Proof.
  intros Hst. unfold Search.range_case.
  destruct (Price.detect_price_query q) as [[ip mx] mn].
  destruct (ip && _); [|discriminate].
  destruct (PriceRange.search_by_price_range _ _ _ _); [discriminate|].
  rewrite Hst. apply filtered_case.
Qed.

Lemma cheapest_case_stattrak e q rs :
  Search.is_stattrak q = true -> Search.cheapest_case e q = Some rs -> all_st rs.
Proof.
  intros Hst. unfold Search.cheapest_case. rewrite Hst.
  destruct (_ || _); [|discriminate].
  destruct (Search.detected_weapon q); [apply filtered_case|].
  destruct (PriceRange.cheapest_all e true) as [|x l'] eqn:E; [discriminate|].
  intros H. injection H as <-. rewrite <- E. intros r. apply sorted_all_items_stattrak.
Qed.

Lemma most_expensive_case_stattrak e q rs :
  Search.is_stattrak q = true -> Search.most_expensive_case e q = Some rs -> all_st rs.
Proof.
  intros Hst. unfold Search.most_expensive_case. rewrite Hst.
  destruct (_ || _); [|discriminate].
  destruct (Search.detected_weapon q); [apply filtered_case|].
  destruct (PriceRange.most_expensive_all e true) as [|x l'] eqn:E; [discriminate|].
  intros H. injection H as <-. rewrite <- E. intros r. apply sorted_all_items_stattrak.
Qed.

End SearchFacts.

(** Claim C5 (code bug): in ["cheapest"] the letters ["st"] occur only
    inside a word, yet [_correct_spelling] rewrites them to
    ["cheapestattrak"], the StatTrak flag of [search] is set, and the
    cheapest-query case keeps only the StatTrak item of the catalog,
    although the query asks for no StatTrak item. *)
Lemma search_stattrak_from_cheapest :
  let e := mk_engine [("AK-47 | Redline (Field-Tested)", sample_item 1);
                      ("StatTrak™ AK-47 | Slate (Field-Tested)", sample_item 2)] in
  Search.search_query "cheapest" = "cheapestattrak" /\
  Search.is_stattrak (Search.search_query "cheapest") = true /\
  option_map (map item_name) (Search.price_cases e "cheapest") =
    Some ["StatTrak™ AK-47 | Slate (Field-Tested)"].
Proof. vm_compute. repeat split; reflexivity. Qed.


(** Claim C9: with an empty result list, [format_search_results]
    returns a message that starts with ["I couldn't find "] (the
    alternatives note or one of the two not-found messages), hence
    never the empty string; this path raises nothing, the recursive
    [search] calls apart, which are taken as returning. *)
Theorem format_empty_results_message
  (search : string -> nat -> list result) (fmt2 : Q -> string) (fmt_int : Z -> string)
  (format_found : list result -> string -> string) (query : string) :
  let s := Format.format_search_results search fmt2 fmt_int format_found [] query in
  Py.startswith s "I couldn't find " = true /\ s <> "".
Proof.
  intros s.
  assert (Hp : Py.startswith s "I couldn't find " = true).
  { unfold s, Format.format_search_results.
    cbv zeta.
    destruct (Format.detected_weapon (Py.lower query)) as [w|],
      (Format.detected_skin (Py.lower query)) as [k|],
      (Format.detected_wear (Py.lower query)) as [r|],
      (Py.any_in Match.st_terms (Py.lower query)); try reflexivity.
    destruct (Format.alternate_results search w k r); reflexivity. }
  split; [exact Hp|].
  intros He. rewrite He in Hp. discriminate Hp.
Qed.

Module StatTrakFacts.
Import StatTrakIndex.

Definition st_pred (n : string) : bool := Match.is_stattrak_name (Py.lower n).

Lemma fold_items names ix :
  stattrak_items (fold_left add_name names ix) =
  (stattrak_items ix ++ filter st_pred names)%list /\
  non_stattrak_items (fold_left add_name names ix) =
  (non_stattrak_items ix ++ filter (fun n => negb (st_pred n)) names)%list.
Proof.
  revert ix. induction names as [|n ns IH]; intros ix; simpl.
  - now rewrite !app_nil_r.
  - destruct (IH (add_name ix n)) as [H1 H2]. rewrite H1, H2.
    unfold add_name, st_pred. destruct (Match.is_stattrak_name (Py.lower n)); simpl;
    now rewrite <- !app_assoc.
Qed.

Lemma dict_get_map d k v k' :
  dict_get (map (fun p => if String.eqb (fst p) k then (k, v) else p) d) k' =
  if existsb (fun p => String.eqb (fst p) k) d && String.eqb k k' then Some v
  else dict_get d k'.
Proof.
  unfold dict_get.
  induction d as [|[k1 v1] d IH]; simpl; [now destruct (String.eqb k k')|].
  destruct (String.eqb k1 k) eqn:E1; simpl.
  - apply String.eqb_eq in E1. subst k1. simpl.
    destruct (String.eqb k k') eqn:E; [reflexivity|].
    rewrite IH, andb_false_r. reflexivity.
  - destruct (String.eqb k1 k') eqn:E2.
    + apply String.eqb_eq in E2. subst k1. rewrite (String.eqb_sym k k'), E1, andb_false_r. reflexivity.
    + exact IH.
Qed.

Lemma dict_get_set d k v k' :
  dict_get (dict_set d k v) k' = if String.eqb k k' then Some v else dict_get d k'.
Proof.
  unfold dict_set.
  destruct (existsb _ d) eqn:Ex.
  - rewrite dict_get_map, Ex. reflexivity.
  - unfold dict_get. induction d as [|[k1 v1] d IH]; simpl in *.
    + destruct (String.eqb k k'); reflexivity.
    + apply orb_false_iff in Ex. destruct Ex as [E1 Ex].
      destruct (String.eqb k1 k') eqn:E2.
      * apply String.eqb_eq in E2. subst k1. rewrite String.eqb_sym, E1. reflexivity.
      * apply IH. exact Ex.
Qed.

Lemma hd_error_app_single {A} (l : list A) x :
  hd_error (l ++ [x])%list = match hd_error l with Some m => Some m | None => Some x end.
Proof. destruct l; reflexivity. Qed.

Lemma fold_mapping names ix k :
  dict_get (stattrak_mapping (fold_left add_name names ix)) k =
  match hd_error (rev (filter (fun n => String.eqb (non_st_name n) k) (filter st_pred names))) with
  | Some m => Some m
  | None => dict_get (stattrak_mapping ix) k
  end.
Proof.
  revert ix. induction names as [|n ns IH]; intros ix; simpl; [reflexivity|].
  rewrite IH. unfold add_name, st_pred.
  destruct (Match.is_stattrak_name (Py.lower n)); simpl.
  - rewrite dict_get_set.
    destruct (String.eqb (non_st_name n) k); simpl.
    + rewrite hd_error_app_single.
      destruct (hd_error _); reflexivity.
    + reflexivity.
  - reflexivity.
Qed.

End StatTrakFacts.

(** X1: [_build_stattrak_index] puts the catalog names whose lower-cased form is a StatTrak name in [stattrak_items], and all the others in [non_stattrak_items], both in catalog order. *)
Theorem stattrak_index_partition (e : engine) :
  StatTrakIndex.stattrak_items (StatTrakIndex.build_stattrak_index e) =
    filter (fun n => Match.is_stattrak_name (Py.lower n)) (item_names e) /\
  StatTrakIndex.non_stattrak_items (StatTrakIndex.build_stattrak_index e) =
    filter (fun n => negb (Match.is_stattrak_name (Py.lower n))) (item_names e).
Proof.
  unfold StatTrakIndex.build_stattrak_index.
  destruct (StatTrakFacts.fold_items (item_names e) (StatTrakIndex.mk_st_index [] [] [])) as [H1 H2].
  rewrite H1, H2. split; reflexivity.
Qed.

(** X2: the StatTrak mapping of [_build_stattrak_index] maps a key to the LAST StatTrak item whose name with the StatTrak prefix removed equals the key; later items overwrite earlier ones. *)
Theorem stattrak_mapping_last (e : engine) (k : string) :
  StatTrakIndex.dict_get (StatTrakIndex.stattrak_mapping (StatTrakIndex.build_stattrak_index e)) k =
  hd_error (rev (filter (fun n => String.eqb (StatTrakIndex.non_st_name n) k)
                  (StatTrakIndex.stattrak_items (StatTrakIndex.build_stattrak_index e)))).
Proof.
  unfold StatTrakIndex.build_stattrak_index.
  rewrite StatTrakFacts.fold_mapping.
  destruct (StatTrakFacts.fold_items (item_names e) (StatTrakIndex.mk_st_index [] [] [])) as [H1 _].
  rewrite H1. simpl. destruct (hd_error _); reflexivity.
Qed.

Module ListFacts.

Lemma filter_none {A} (f : A -> bool) l :
  (forall x, In x l -> f x = false) -> filter f l = [].
Proof.
  induction l as [|x l IH]; simpl; intros H; [reflexivity|].
  rewrite H by now left. apply IH. intros y Hy. apply H. now right.
Qed.

Lemma filter_all {A} (f : A -> bool) l :
  (forall x, In x l -> f x = true) -> filter f l = l.
Proof.
  induction l as [|x l IH]; simpl; intros H; [reflexivity|].
  rewrite H by now left. f_equal. apply IH. intros y Hy. apply H. now right.
Qed.

End ListFacts.

Module RangeMoreFacts.
Import PriceRange.

Definition range_names (e : engine) (w : option string) : list string :=
  match weapon_given w with
  | Some w0 => WeaponIndex.get (WeaponIndex.build_weapon_index e) (Py.lower w0)
  | None => item_names e
  end.

Lemma search_by_price_range_names e w mx mn r :
  In r (search_by_price_range e w mx mn) ->
  exists n, In n (range_names e w) /\ range_entry e mx mn n = Some r.
Proof.
  unfold search_by_price_range. cbv zeta. fold (range_names e w).
  destruct (range_names e w) as [|n0 ns] eqn:En; [intros []|].
  intros H. apply RangeFacts.firstn_In_l in H.
  repeat match type of H with
  | In _ (if ?b then _ else _) => destruct b
  end; apply SortFacts.sort_by_In in H; apply RangeFacts.collect_In in H; exact H.
Qed.

Lemma range_entry_record e mx mn n r :
  range_entry e mx mn n = Some r ->
  excluded n = false /\ exists it, lookup_item e n = Some it /\ price_record n it None = Some r.
Proof.
  unfold range_entry.
  destruct (lookup_item e n) as [it|]; [|discriminate].
  destruct (excluded n); [discriminate|].
  destruct (current_price_of it); [|discriminate].
  destruct (_ && _); [|discriminate].
  intros H. split; [reflexivity|]. eauto.
Qed.

End RangeMoreFacts.

(** X3: [search_by_price_range] with an upper bound below the lower bound returns no item. *)
Theorem search_by_price_range_reversed_bounds (e : engine) (w : option string) (mx mn : Q)
    (Hlt : mx < mn) :
  PriceRange.search_by_price_range e w (Some mx) mn = [].
Proof.
  destruct (PriceRange.search_by_price_range e w (Some mx) mn) as [|r rs] eqn:E;
    [reflexivity|exfalso].
  assert (Hin : In r (PriceRange.search_by_price_range e w (Some mx) mn)) by (rewrite E; now left).
  apply RangeFacts.search_by_price_range_In in Hin. destruct Hin as [n [_ Hr]].
  apply RangeFacts.range_entry_spec in Hr.
  destruct Hr as [it [_ [_ [_ [Hmn Hmx]]]]].
  specialize (Hmx mx eq_refl).
  apply (Qlt_not_le mx mn Hlt). eapply Qle_trans; eassumption.
Qed.

Lemma search_by_price_range_reversed_bounds_witness :
  (1 # 1) < 2 /\
  PriceRange.search_by_price_range (mk_engine [("AWP | Asiimov", sample_item 1)]) None (Some 1) 2 = [].
Proof.
  split; [vm_compute; reflexivity|].
  apply search_by_price_range_reversed_bounds. vm_compute. reflexivity.
Defined.

(** X4: when a non-empty weapon is given, every item [search_by_price_range] returns is a catalog item of that weapon's bucket of the weapon index. *)
Theorem search_by_price_range_weapon_bucket (e : engine) (w : option string) (s : string)
    (mx : option Q) (mn : Q) (r : result)
    (Hw : PriceRange.weapon_given w = Some s)
    (Hr : In r (PriceRange.search_by_price_range e w mx mn)) :
  WeaponIndex.weapon_bucket (item_name r) = Some (Py.lower s) /\ In (item_name r) (item_names e).
Proof.
  apply RangeMoreFacts.search_by_price_range_names in Hr.
  destruct Hr as [n [Hn Hr]].
  apply RangeMoreFacts.range_entry_record in Hr. destruct Hr as [_ [it [_ Hr]]].
  apply RangeFacts.price_record_fields in Hr. destruct Hr as [-> _].
  unfold RangeMoreFacts.range_names in Hn. rewrite Hw in Hn.
  rewrite WeaponIndexFacts.build_bucket_filter, filter_In in Hn. destruct Hn as [Hn Hb].
  split; [|exact Hn].
  unfold WeaponIndexFacts.in_bucket in Hb.
  destruct (WeaponIndex.weapon_bucket n) as [k|]; [|discriminate].
  apply String.eqb_eq in Hb. now subst.
Qed.

(** X5: every item [search_by_price_range] returns is a catalog item not dropped by the filter of stickers, cases and other non-weapon items, and its record is the item's price dictionary without match score. *)
Theorem search_by_price_range_not_excluded (e : engine) (w : option string)
    (mx : option Q) (mn : Q) (r : result)
    (Hr : In r (PriceRange.search_by_price_range e w mx mn)) :
  PriceRange.excluded (item_name r) = false /\
  exists it, lookup_item e (item_name r) = Some it /\ price_record (item_name r) it None = Some r.
Proof.
  apply RangeMoreFacts.search_by_price_range_names in Hr.
  destruct Hr as [n [_ Hr]].
  pose proof Hr as Hr'. apply RangeMoreFacts.range_entry_record in Hr'.
  destruct Hr' as [Hx [it [Hl Hp]]].
  pose proof (RangeFacts.price_record_fields _ _ _ _ Hp) as [Hn _]. rewrite Hn. eauto.
Qed.

(** X6: [exact_match] with a blank query returns the whole catalog, in order, provided no catalog name is empty. *)
Theorem exact_match_blank_query (e : engine) (query : string)
    (Hblank : Py.strip (Py.lower query) = "")
    (Hnames : forall n, In n (item_names e) -> Py.lower n <> "") :
  Match.exact_match e query = item_names e.
Proof.
  unfold Match.exact_match. rewrite Hblank. cbv zeta.
  replace (filter (fun n => Match.exact_key "" (Match.query_is_stattrak "") (Py.lower n)) (item_names e))
    with (@nil string).
  2:{ symmetry. apply ListFacts.filter_none. intros n Hn.
      specialize (Hnames n Hn). vm_compute (Match.query_is_stattrak ""). unfold Match.exact_key.
      rewrite andb_false_l, orb_false_r.
      destruct (String.eqb "" (Py.lower n)) eqn:E; [|reflexivity].
      apply String.eqb_eq in E. now destruct Hnames. }
  replace (Match.match_by_parsed_components e "") with (@nil string) by (vm_compute; reflexivity).
  rewrite ListFacts.filter_all; [destruct (item_names e); reflexivity|].
  intros n _. unfold Match.prefix_key, Py.startswith. now destruct (Py.lower n).
Qed.

Lemma exact_match_blank_query_witness :
  Match.exact_match (mk_engine [("AWP | Asiimov", sample_item 1); ("Glock-18 | Fade", sample_item 2)]) "  "
    = ["AWP | Asiimov"; "Glock-18 | Fade"].
Proof.
  apply exact_match_blank_query; [vm_compute; reflexivity|].
  intros n Hn. simpl in Hn.
  destruct Hn as [<-|[<-|[]]]; vm_compute; discriminate.
Defined.

(** X7: [hierarchical_search] never returns more than [limit] items. *)
Theorem hierarchical_search_limit (fz : Hierarchical.fuzzy_fn) (e : engine) (query : string)
    (limit : nat) :
  (length (Hierarchical.hierarchical_search fz e query limit) <= limit)%nat.
Proof.
  unfold Hierarchical.hierarchical_search. cbv zeta.
  destruct (PriceRange.collect _ _); [|apply OrderFacts.length_firstn_le].
  destruct (Price.detect_price_query _) as [[ip mx] mn].
  destruct (_ && _); [|apply OrderFacts.length_firstn_le].
  destruct (PriceRange.search_by_price_range _ _ _ _); apply OrderFacts.length_firstn_le.
Qed.

Module WeaponSkinFacts.
Import WeaponSkin.

Lemma index_of_lt x l i : PyStr.index_of x l = Some i -> (i < length l)%nat.
Proof.
  revert i. induction l as [|y l IH]; intros i; simpl; [discriminate|].
  destruct (String.eqb x y); [intros H; injection H as <-; lia|].
  destruct (PyStr.index_of x l) as [j|]; simpl; [|discriminate].
  intros H. injection H as <-. specialize (IH j eq_refl). lia.
Qed.

Lemma index_of_In x l : In x l -> exists i, PyStr.index_of x l = Some i.
Proof.
  induction l as [|y l IH]; simpl; [intros []|].
  destruct (String.eqb x y) eqn:E; [eauto|].
  intros [->|H]; [rewrite String.eqb_refl in E; discriminate|].
  destruct (IH H) as [i ->]. simpl. eauto.
Qed.

Lemma good_matches_In sn mws gm p :
  good_matches sn mws = Some gm -> In p gm -> exists x, In x sn /\ fst x = fst p.
Proof.
  revert gm. induction mws as [|[name score] rest IH]; intros gm; simpl.
  - intros H. injection H as <-. intros [].
  - destruct (Z.leb 75 score); [|apply IH].
    destruct (PyStr.index_of name (map snd sn)) as [i|] eqn:I; [|discriminate].
    destruct (good_matches sn rest) as [gm'|] eqn:G; [|discriminate].
    intros H. injection H as <-. intros [<-|Hp]; [|exact (IH gm' eq_refl Hp)].
    exists (nth i sn ("", "")). split; [|reflexivity].
    apply nth_In. apply index_of_lt in I. now rewrite length_map in I.
Qed.

Lemma good_matches_ok sn mws :
  (forall p, In p mws -> In (fst p) (map snd sn)) -> exists gm, good_matches sn mws = Some gm.
Proof.
  induction mws as [|[name score] rest IH]; simpl; intros H; [eauto|].
  assert (Hr : forall p, In p rest -> In (fst p) (map snd sn)) by auto.
  destruct (IH Hr) as [gm' G]. rewrite G.
  destruct (Z.leb 75 score); [|eauto].
  destruct (index_of_In name (map snd sn)) as [i ->]; [exact (H _ (or_introl eq_refl))|].
  eauto.
Qed.

(** What every name returned by [search_by_weapon_and_skin] satisfies. *)
Definition returned_ok (e : engine) (w skin n : string) : Prop :=
  In n (WeaponIndex.get (WeaponIndex.build_weapon_index e) (Py.lower w)) /\
  (Py.any_in Match.st_terms (Py.strip (Py.lower skin)) = true ->
     Match.is_stattrak_name (Py.lower n) = true) /\
  (forall wear, Format.detected_wear (Py.strip (Py.lower skin)) = Some wear ->
     Py.contains (Py.lower wear) (Py.lower n) = true).

Lemma search_by_weapon_and_skin_In extract e w skin l n :
  search_by_weapon_and_skin extract e w skin = Some l -> In n l -> returned_ok e w skin n.
Proof.
  unfold search_by_weapon_and_skin, returned_ok, Format.detected_wear.
  generalize (WeaponIndex.get (WeaponIndex.build_weapon_index e) (Py.lower w)) as items.
  generalize (Py.strip (Py.lower skin)) as s. intros s items.
  destruct (find (fun wa => Py.any_in (snd wa) s) Format.wear_conditions)
    as [[wear aliases]|]; cbv beta iota zeta.
  all: destruct (filter _ items) as [|m ms] eqn:Em.
  2, 4: intros H Hn; injection H as <-; rewrite <- Em in Hn;
        apply filter_In in Hn; destruct Hn as [Hi Hp];
        apply andb_true_iff in Hp; destruct Hp as [Hp Hwear];
        apply andb_true_iff in Hp; destruct Hp as [Hst _];
        split; [exact Hi|split];
        [ intros Hs; rewrite Hs in Hst; simpl in Hst;
          now destruct (Match.is_stattrak_name (Py.lower n))
        | intros wear0 Hw; try discriminate; injection Hw as <-; exact Hwear ].
  all: destruct (String.eqb _ ""); [intros H; injection H as <-; intros []|].
  all: destruct (PriceRange.collect _ items) as [|x xs] eqn:Ec;
         [intros H; injection H as <-; intros []|].
  all: destruct (good_matches _ _) as [gm|] eqn:G; [|discriminate].
  all: intros H; injection H as <-; intros Hn;
       apply in_map_iff in Hn; destruct Hn as [p [Hpn Hp]];
       apply SortFacts.sort_by_In in Hp;
       destruct (good_matches_In _ _ _ _ G Hp) as [x0 [Hx0 Hfx]];
       rewrite <- Ec in Hx0; apply RangeFacts.collect_In in Hx0;
       destruct Hx0 as [y [Hy Hf]].
  all: destruct (Py.any_in Match.st_terms s && negb (Match.is_stattrak_name (Py.lower y))) eqn:Est;
         [discriminate|].
  all: destruct (PyStr.split_sep "|" (Py.lower y)) as [|a [|b rest]]; try discriminate.
  1: destruct (Py.contains (Py.lower wear) (Py.lower y)) eqn:Hwy; [|discriminate].
  all: injection Hf as <-; simpl in Hfx; subst y; subst n.
  all: split; [exact Hy|split];
       [ intros Hs; rewrite Hs in Est; simpl in Est;
         now destruct (Match.is_stattrak_name (Py.lower (fst p)))
       | intros wear0 Hw; try discriminate; injection Hw as <-; assumption ].
Qed.

(** The contract of [process.extract]: it returns choices it was given. *)
Definition extract_ok (extract : extract_fn) : Prop :=
  forall q cs k p, In p (extract q cs k) -> In (fst p) cs.

Lemma search_by_weapon_and_skin_some extract e w skin :
  extract_ok extract -> exists l, search_by_weapon_and_skin extract e w skin = Some l.
Proof.
  intros Hext.
  unfold search_by_weapon_and_skin.
  generalize (WeaponIndex.get (WeaponIndex.build_weapon_index e) (Py.lower w)) as items.
  generalize (Py.strip (Py.lower skin)) as s. intros s items.
  destruct (find (fun wa => Py.any_in (snd wa) s) Format.wear_conditions)
    as [[wear aliases]|]; cbv beta iota zeta.
  all: destruct (filter _ items); [|eauto].
  all: destruct (String.eqb _ ""); [eauto|].
  all: destruct (PriceRange.collect _ items) as [|x xs]; [eauto|].
  all: match goal with |- context [good_matches ?sn ?mws] =>
         destruct (good_matches_ok sn mws (fun p Hp => Hext _ _ _ _ Hp)) as [gm ->] end.
  all: eauto.
Qed.

End WeaponSkinFacts.

Module FuzzyFacts.
Import WeaponSkinFacts.

Definition names_ok (e : engine) (l : list (string * Z)) : Prop :=
  forall p, In p l -> In (fst p) (item_names e).

Lemma st_items_names e n :
  In n (StatTrakIndex.stattrak_items (StatTrakIndex.build_stattrak_index e)) -> In n (item_names e).
Proof.
  unfold StatTrakIndex.build_stattrak_index.
  destruct (StatTrakFacts.fold_items (item_names e) (StatTrakIndex.mk_st_index [] [] [])) as [H1 _].
  rewrite H1. simpl. rewrite filter_In. tauto.
Qed.

Lemma with_100_ok e l :
  (forall n, In n l -> In n (item_names e)) -> names_ok e (Fuzzy.with_100 l).
Proof.
  intros H p Hp. unfold Fuzzy.with_100 in Hp. apply in_map_iff in Hp.
  destruct Hp as [n [<- Hn]]. exact (H n Hn).
Qed.

Lemma prefer_stattrak_In b l n : In n (Fuzzy.prefer_stattrak b l) -> In n l.
Proof.
  unfold Fuzzy.prefer_stattrak. destruct b; [|auto].
  destruct (filter _ l) as [|m ms] eqn:E; [auto|].
  rewrite <- E. rewrite filter_In. tauto.
Qed.

Lemma weapon_stage_ok extract e w skin ds dw st :
  extract_ok extract ->
  exists o, Fuzzy.weapon_stage extract e w skin ds dw st = Some o /\
            forall r, o = Some r -> names_ok e r.
Proof.
  intros Hext. unfold Fuzzy.weapon_stage.
  destruct (match ds, dw with Some s, Some w0 => Fuzzy.targeted e w s w0 st | _, _ => [] end)
    as [|m ms] eqn:Et.
  2:{ eexists; split; [reflexivity|]. intros r H.
      replace r with (Fuzzy.with_100 (m :: ms)) by congruence.
      apply with_100_ok. intros n Hn. rewrite <- Et in Hn.
      destruct ds, dw; try destruct Hn. unfold Fuzzy.targeted in Hn.
      apply filter_In in Hn. tauto. }
  destruct (String.eqb skin ""); [eexists; split; [reflexivity|discriminate]|].
  destruct (search_by_weapon_and_skin_some extract e w skin Hext) as [l Hl]. rewrite Hl.
  destruct l as [|n0 l]; [eexists; split; [reflexivity|discriminate]|].
  eexists; split; [reflexivity|]. intros r H.
  replace r with (Fuzzy.with_100 (Fuzzy.prefer_stattrak st (n0 :: l))) by congruence.
  apply with_100_ok. intros n Hn. apply prefer_stattrak_In in Hn.
  destruct (search_by_weapon_and_skin_In _ _ _ _ _ _ Hl Hn) as [Hb _].
  exact (WeaponIndexFacts.bucket_names _ _ _ Hb).
Qed.

Ltac fallback_ok Hext :=
  match goal with |- exists l, (if ?b then Some _ else Some _) = Some l /\ _ =>
    destruct b; (eexists; split; [reflexivity|]); intros p Hp; apply Hext in Hp;
    [apply st_items_names|]; exact Hp
  end.

Ltac stage_ok Hext :=
  match goal with |- context [Fuzzy.weapon_stage ?x ?e ?w ?s ?ds ?dw ?st] =>
    destruct (weapon_stage_ok x e w s ds dw st Hext) as [[r|] [-> Ho]];
    [eexists; split; [reflexivity|]; now apply Ho | fallback_ok Hext]
  end.

Lemma fuzzy_search_ok extract e q k :
  extract_ok extract ->
  exists l, Fuzzy.fuzzy_search extract e q k = Some l /\ names_ok e l.
Proof.
  intros Hext. unfold Fuzzy.fuzzy_search.
  destruct (item_names e) as [|n0 ns] eqn:En.
  { exists []. split; [reflexivity|]. intros p []. }
  rewrite <- En. cbv zeta.
  destruct (PyStr.split_ws _) as [|p0 rest].
  2: destruct (PyStr.lookup Fuzzy.weapon_prefixes p0).
  1: destruct (Py.contains "karambit" _); [stage_ok Hext|fallback_ok Hext].
  1: destruct (String.eqb _ ""); [fallback_ok Hext|stage_ok Hext].
  destruct (Py.contains "karambit" _); [stage_ok Hext|fallback_ok Hext].
Qed.

End FuzzyFacts.

Module EngineFacts.
Import WeaponSkinFacts FuzzyFacts.

(** A result is the price dictionary of a catalog item. *)
Definition sound (e : engine) (rs : list result) : Prop :=
  forall r, In r rs -> exists it sc,
    lookup_item e (item_name r) = Some it /\ price_record (item_name r) it sc = Some r.

Lemma sound_incl e l l' : (forall r, In r l' -> In r l) -> sound e l -> sound e l'.
Proof. intros H Hs r Hr. exact (Hs r (H r Hr)). Qed.

Lemma sound_sort e lt l : sound e l -> sound e (Sort.sort_by lt l).
Proof. apply sound_incl. intros r. apply SortFacts.sort_by_In. Qed.

Lemma sound_firstn e n l : sound e l -> sound e (firstn n l).
Proof. apply sound_incl. intros r. apply RangeFacts.firstn_In_l. Qed.

Lemma sound_take e n l : sound e l -> sound e (Engine.take n l).
Proof. unfold Engine.take. destruct n; [auto|apply sound_firstn]. Qed.

Lemma sound_stattrak_only e l : sound e l -> sound e (Search.stattrak_only l).
Proof. apply sound_incl. intros r. unfold Search.stattrak_only. rewrite filter_In. tauto. Qed.

Lemma record_sound e n it sc r :
  lookup_item e n = Some it -> price_record n it sc = Some r ->
  exists it' sc', lookup_item e (item_name r) = Some it' /\
                  price_record (item_name r) it' sc' = Some r.
Proof.
  intros Hl Hp. pose proof (RangeFacts.price_record_fields _ _ _ _ Hp) as [Hn _].
  rewrite Hn. eauto.
Qed.

Lemma collect_record_of_sound e l : sound e (PriceRange.collect (record_of e) l).
Proof.
  intros r Hr. apply RangeFacts.collect_In in Hr. destruct Hr as [n [_ Hr]].
  unfold record_of in Hr. destruct (lookup_item e n) eqn:Hl; [|discriminate].
  eapply record_sound; eassumption.
Qed.

Lemma collect_scored_sound e l : sound e (PriceRange.collect (Hierarchical.scored_record e) l).
Proof.
  intros r Hr. apply RangeFacts.collect_In in Hr. destruct Hr as [n [_ Hr]].
  unfold Hierarchical.scored_record in Hr. destruct (lookup_item e n) eqn:Hl; [|discriminate].
  eapply record_sound; eassumption.
Qed.

Lemma search_by_price_range_sound e w mx mn :
  sound e (PriceRange.search_by_price_range e w mx mn).
Proof.
  intros r Hr. apply RangeMoreFacts.search_by_price_range_names in Hr.
  destruct Hr as [n [_ Hr]]. apply RangeMoreFacts.range_entry_record in Hr.
  destruct Hr as [_ [it [Hl Hp]]]. eapply record_sound; eassumption.
Qed.

Lemma all_items_sound e st : sound e (PriceRange.all_items e st).
Proof.
  intros r Hr. apply RangeFacts.collect_In in Hr. destruct Hr as [n [_ Hr]].
  destruct (st && _); [discriminate|].
  unfold record_of in Hr. destruct (lookup_item e n) eqn:Hl; [|discriminate].
  eapply record_sound; eassumption.
Qed.

Lemma cheapest_by_weapon_sound e w k : sound e (PriceRange.search_cheapest_by_weapon e w k).
Proof.
  unfold PriceRange.search_cheapest_by_weapon. cbv zeta.
  destruct (WeaponIndex.get _ _); [intros r []|].
  destruct k; [apply sound_firstn|]; apply sound_sort, collect_record_of_sound.
Qed.

Lemma most_expensive_by_weapon_sound e w k :
  sound e (PriceRange.search_most_expensive_by_weapon e w k).
Proof.
  unfold PriceRange.search_most_expensive_by_weapon. cbv zeta.
  destruct (WeaponIndex.get _ _); [intros r []|].
  destruct k; [apply sound_firstn|]; apply sound_sort, collect_record_of_sound.
Qed.

Lemma hierarchical_search_sound fz e q l : sound e (Hierarchical.hierarchical_search fz e q l).
Proof.
  unfold Hierarchical.hierarchical_search. cbv zeta.
  destruct (PriceRange.collect (Hierarchical.scored_record e) _) as [|r0 rs] eqn:C.
  2:{ rewrite <- C. apply sound_firstn, collect_scored_sound. }
  destruct (Price.detect_price_query _) as [[ip mx] mn].
  destruct (_ && _); [|intros r Hr; apply RangeFacts.firstn_In_l in Hr; destruct Hr].
  destruct (PriceRange.search_by_price_range _ _ _ _) as [|p0 ps] eqn:S.
  - intros r Hr. apply RangeFacts.firstn_In_l in Hr. destruct Hr.
  - rewrite <- S. apply sound_firstn, search_by_price_range_sound.
Qed.

Lemma some_list_sound e (l : list result) rs :
  sound e l -> match l with [] => None | _ :: _ => Some l end = Some rs -> sound e rs.
Proof. destruct l; [discriminate|]. intros H H'. injection H' as <-. exact H. Qed.

Lemma range_case_sound e q rs : Search.range_case e q = Some rs -> sound e rs.
Proof.
  unfold Search.range_case.
  destruct (Price.detect_price_query q) as [[ip mx] mn].
  destruct (_ && _); [|discriminate].
  destruct (PriceRange.search_by_price_range _ _ _ _) as [|p0 ps] eqn:S; [discriminate|].
  rewrite <- S. cbv zeta. apply some_list_sound.
  destruct (Search.is_stattrak q); [apply sound_stattrak_only|]; apply search_by_price_range_sound.
Qed.

Lemma cheapest_case_sound e q rs : Search.cheapest_case e q = Some rs -> sound e rs.
Proof.
  unfold Search.cheapest_case.
  destruct (_ || _); [|discriminate].
  destruct (Search.detected_weapon q).
  - cbv zeta. apply some_list_sound.
    destruct (Search.is_stattrak q); [apply sound_stattrak_only|]; apply cheapest_by_weapon_sound.
  - destruct (PriceRange.cheapest_all e _) as [|r0 l] eqn:C; [discriminate|].
    intros H. injection H as <-. rewrite <- C.
    apply sound_firstn, sound_sort, all_items_sound.
Qed.

Lemma most_expensive_case_sound e q rs : Search.most_expensive_case e q = Some rs -> sound e rs.
Proof.
  unfold Search.most_expensive_case.
  destruct (_ || _); [|discriminate].
  destruct (Search.detected_weapon q).
  - cbv zeta. apply some_list_sound.
    destruct (Search.is_stattrak q); [apply sound_stattrak_only|];
      apply most_expensive_by_weapon_sound.
  - destruct (PriceRange.most_expensive_all e _) as [|r0 l] eqn:C; [discriminate|].
    intros H. injection H as <-. rewrite <- C.
    apply sound_firstn, sound_sort, all_items_sound.
Qed.

Lemma price_cases_sound e query rs : Search.price_cases e query = Some rs -> sound e rs.
Proof.
  unfold Search.price_cases. cbv zeta.
  destruct (Search.range_case e _) eqn:R.
  - intros H. injection H as <-. eapply range_case_sound; eassumption.
  - destruct (Search.cheapest_case e _) eqn:C.
    + intros H. injection H as <-. eapply cheapest_case_sound; eassumption.
    + apply most_expensive_case_sound.
Qed.

Lemma records_sound e names rs : Engine.records e names = Some rs -> sound e rs.
Proof.
  revert rs. induction names as [|[n sc] rest IH]; intros rs; simpl.
  - intros H. injection H as <-. intros r [].
  - unfold Engine.keyed_record. destruct (lookup_item e n) as [it|] eqn:Hl; [|discriminate].
    destruct (Engine.records e rest) as [rs'|]; [|discriminate].
    intros H. injection H as <-. specialize (IH rs' eq_refl).
    destruct (price_record n it sc) as [x|] eqn:Hp; [|exact IH].
    intros r [<-|Hr]; [eapply record_sound; eassumption|exact (IH r Hr)].
Qed.

Section Cases.
Variable extract : WeaponSkin.extract_fn.
Variable pr : string -> string -> Z.
Variable e : engine.

Lemma case3_sound q w s st l rs : Engine.case3 extract pr e q w s st l = Some (Some rs) -> sound e rs.
Proof.
  unfold Engine.case3.
  destruct (WeaponSkin.search_by_weapon_and_skin extract e w s) as [m|]; [|discriminate].
  cbv zeta. destruct (Engine.prefer_st st m) as [|n0 ns]; [discriminate|].
  destruct (Engine.records e _) as [rs0|] eqn:R; [|discriminate].
  destruct (Sort.sort_by _ rs0) as [|r0 rs1] eqn:S; [discriminate|].
  intros H. injection H as <-. apply sound_take. rewrite <- S. apply sound_sort.
  eapply records_sound; eassumption.
Qed.

Lemma case4_sound w ip st l rs : Engine.case4 e w ip st l = Some (Some rs) -> sound e rs.
Proof.
  unfold Engine.case4. cbv zeta.
  destruct (if ip then _ else []) as [|p0 ps] eqn:P.
  2:{ intros H. injection H as <-. rewrite <- P. destruct ip; [|intros r []].
      destruct st; [apply sound_stattrak_only|]; apply cheapest_by_weapon_sound. }
  destruct (Engine.prefer_st st _) as [|n0 ns]; [discriminate|].
  destruct (Engine.records e _) as [rs0|] eqn:R; [|discriminate].
  destruct ip; destruct (Sort.sort_by _ rs0) as [|r0 rs1] eqn:S; try discriminate;
  intros H; injection H as <-; apply sound_take; rewrite <- S;
  apply sound_sort; eapply records_sound; eassumption.
Qed.

Lemma case5_sound q ip st l rs : Engine.case5 e q ip st l = Some (Some rs) -> sound e rs.
Proof.
  unfold Engine.case5.
  destruct (Match.exact_match e q) as [|n0 ns]; [discriminate|]. cbv zeta.
  destruct (Engine.records e _) as [rs0|] eqn:R; [|discriminate].
  destruct ip.
  - destruct (Sort.sort_by _ rs0) as [|r0 rs1] eqn:S; [discriminate|].
    intros H. injection H as <-. apply sound_take. rewrite <- S.
    apply sound_sort. eapply records_sound; eassumption.
  - destruct rs0 as [|r0 rs1]; [discriminate|].
    intros H. injection H as <-. apply sound_take. eapply records_sound; eassumption.
Qed.

Lemma case6_sound q ip st l rs : Engine.case6 extract e q ip st l = Some rs -> sound e rs.
Proof.
  unfold Engine.case6.
  destruct (Fuzzy.fuzzy_search extract e q _) as [[|p0 ps]|]; try discriminate.
  { intros H. injection H as <-. intros r []. }
  cbv zeta. destruct (Engine.records e _) as [rs0|] eqn:R; [|discriminate].
  intros H. injection H as <-. apply sound_take.
  destruct ip; apply sound_sort; eapply records_sound; eassumption.
Qed.

(** Every answer of [search_rest] comes from one of its cases. *)
Lemma search_rest_inv (P : list result -> Prop) query l :
  (forall rs, Search.price_cases e query = Some rs -> P rs) ->
  (forall q w s st rs, Engine.case3 extract pr e q w s st l = Some (Some rs) -> P rs) ->
  (forall w ip st rs, Engine.case4 e w ip st l = Some (Some rs) -> P rs) ->
  (forall q ip st rs, Engine.case5 e q ip st l = Some (Some rs) -> P rs) ->
  (forall q ip st rs, Engine.case6 extract e q ip st l = Some rs -> P rs) ->
  forall rs, Engine.search_rest extract pr e query l = Some rs -> P rs.
Proof.
  intros H12 H3 H4 H5 H6 rs. unfold Engine.search_rest.
  destruct (Price.detect_price_query _) as [[ip mx] mn].
  destruct (Search.price_cases e query) eqn:Pc.
  { intros H. injection H as <-. now apply H12. }
  cbv zeta. unfold Engine.next_case.
  assert (Hafter : match Engine.case5 e (Search.search_query query) ip
                           (Search.is_stattrak (Search.search_query query)) l with
                   | Some (Some r) => Some r
                   | Some None => Engine.case6 extract e (Search.search_query query) ip
                                    (Search.is_stattrak (Search.search_query query)) l
                   | None => None
                   end = Some rs -> P rs).
  { destruct (Engine.case5 _ _ _ _ _) as [[r|]|] eqn:C5; [| |discriminate].
    - intros H. injection H as <-. eapply H5; eassumption.
    - apply H6. }
  destruct (Search.detected_weapon _) as [w|]; [|exact Hafter].
  destruct (String.eqb _ "").
  - destruct (Engine.case4 _ _ _ _ _) as [[r|]|] eqn:C4; [| |discriminate].
    + intros H. injection H as <-. eapply H4; eassumption.
    + exact Hafter.
  - destruct (Engine.case3 _ _ _ _ _ _ _ _) as [[r|]|] eqn:C3; [| |discriminate].
    + intros H. injection H as <-. eapply H3; eassumption.
    + exact Hafter.
Qed.


Lemma hierarchical_sound q l rs : Engine.hierarchical extract e q l = Some rs -> sound e rs.
Proof.
  unfold Engine.hierarchical. cbv zeta.
  match goal with |- (if ?b then _ else _) = _ -> _ => destruct b end.
  - destruct (Fuzzy.fuzzy_search extract e _ l); [|discriminate].
    intros H. injection H as <-. apply hierarchical_search_sound.
  - intros H. injection H as <-. apply hierarchical_search_sound.
Qed.

Lemma search_rest_sound query l rs :
  Engine.search_rest extract pr e query l = Some rs -> sound e rs.
Proof.
  apply (search_rest_inv (sound e)); intros.
  - eapply price_cases_sound; eassumption.
  - eapply case3_sound; eassumption.
  - eapply case4_sound; eassumption.
  - eapply case5_sound; eassumption.
  - eapply case6_sound; eassumption.
Qed.

Lemma search_sound flag query l rs :
  fst (Engine.search extract pr e flag query l) = Some rs -> sound e rs.
Proof.
  unfold Engine.search. destruct flag; [apply search_rest_sound|].
  destruct (Engine.hierarchical extract e query l) as [[|h hs]|] eqn:H; simpl;
    [apply search_rest_sound| |discriminate].
  intros E. injection E as <-. eapply hierarchical_sound; eassumption.
Qed.

(** Lengths. *)

Lemma take_length_le {A} l (x : list A) : (1 <= l)%nat -> (length (Engine.take l x) <= l)%nat.
Proof. unfold Engine.take. destruct l; [lia|]. intros _. apply OrderFacts.length_firstn_le. Qed.

Lemma filter_length_le' {A} (f : A -> bool) (x : list A) : (length (filter f x) <= length x)%nat.
Proof. induction x as [|a x IH]; simpl; [lia|]. destruct (f a); simpl; lia. Qed.

Lemma hierarchical_search_length fz q l :
  (length (Hierarchical.hierarchical_search fz e q l) <= l)%nat.
Proof.
  unfold Hierarchical.hierarchical_search. cbv zeta.
  destruct (PriceRange.collect _ _); [|apply OrderFacts.length_firstn_le].
  destruct (Price.detect_price_query _) as [[ip mx] mn].
  destruct (_ && _); [|apply OrderFacts.length_firstn_le].
  destruct (PriceRange.search_by_price_range _ _ _ _); apply OrderFacts.length_firstn_le.
Qed.

Lemma hierarchical_length q l rs : Engine.hierarchical extract e q l = Some rs -> (length rs <= l)%nat.
Proof.
  unfold Engine.hierarchical. cbv zeta.
  match goal with |- (if ?b then _ else _) = _ -> _ => destruct b end.
  - destruct (Fuzzy.fuzzy_search extract e _ l); [|discriminate].
    intros H. injection H as <-. apply hierarchical_search_length.
  - intros H. injection H as <-. apply hierarchical_search_length.
Qed.

Lemma search_by_price_range_length w mx mn :
  (length (PriceRange.search_by_price_range e w mx mn) <= 15)%nat.
Proof.
  destruct (OrderFacts.range_shape e w mx mn) as [->|[x ->]]; [simpl; lia|].
  apply OrderFacts.length_firstn_le.
Qed.

Lemma by_weapon_length w k :
  (length (PriceRange.search_cheapest_by_weapon e w (Some k)) <= k)%nat /\
  (length (PriceRange.search_most_expensive_by_weapon e w (Some k)) <= k)%nat.
Proof.
  unfold PriceRange.search_cheapest_by_weapon, PriceRange.search_most_expensive_by_weapon.
  cbv zeta. destruct (WeaponIndex.get _ _); simpl; [lia|].
  split; apply OrderFacts.length_firstn_le.
Qed.

Lemma some_list_length (x : list result) rs n :
  (length x <= n)%nat -> match x with [] => None | _ :: _ => Some x end = Some rs ->
  (length rs <= n)%nat.
Proof. destruct x; [discriminate|]. intros H H'. injection H' as <-. exact H. Qed.

Lemma stattrak_if_length (b : bool) (x : list result) n :
  (length x <= n)%nat -> (length (if b then Search.stattrak_only x else x) <= n)%nat.
Proof.
  destruct b; [|auto]. unfold Search.stattrak_only.
  pose proof (filter_length_le' (fun r => Match.is_stattrak_name (Py.lower (item_name r))) x). lia.
Qed.

Lemma price_cases_length query rs : Search.price_cases e query = Some rs -> (length rs <= 25)%nat.
Proof.
  unfold Search.price_cases. cbv zeta.
  destruct (Search.range_case e _) eqn:R.
  { intros H. injection H as <-. revert R. unfold Search.range_case.
    destruct (Price.detect_price_query _) as [[ip mx] mn].
    destruct (_ && _); [|discriminate].
    destruct (PriceRange.search_by_price_range _ _ _ _) as [|p0 ps] eqn:S; [discriminate|].
    rewrite <- S. cbv zeta. apply some_list_length.
    apply stattrak_if_length. pose proof (search_by_price_range_length
      (Search.detected_weapon (Search.search_query query)) mx
      (match mn with Some v => v | None => 0 end)). lia. }
  destruct (Search.cheapest_case e _) eqn:C.
  { intros H. injection H as <-. revert C. unfold Search.cheapest_case.
    destruct (_ || _); [|discriminate].
    destruct (Search.detected_weapon _) as [w|].
    - cbv zeta. apply some_list_length, stattrak_if_length, by_weapon_length.
    - destruct (PriceRange.cheapest_all e _) as [|r0 l0] eqn:Ca; [discriminate|].
      intros H. injection H as <-. rewrite <- Ca. apply OrderFacts.length_firstn_le. }
  unfold Search.most_expensive_case.
  destruct (_ || _); [|discriminate].
  destruct (Search.detected_weapon _) as [w|].
  - cbv zeta. apply some_list_length, stattrak_if_length, by_weapon_length.
  - destruct (PriceRange.most_expensive_all e _) as [|r0 l0] eqn:Ca; [discriminate|].
    intros H. injection H as <-. rewrite <- Ca. apply OrderFacts.length_firstn_le.
Qed.

Ltac take_len Hl :=
  match goal with |- (length (Engine.take ?l ?x) <= _)%nat =>
    pose proof (take_length_le l x Hl); lia end.

Lemma search_rest_length query l rs :
  (1 <= l)%nat -> Engine.search_rest extract pr e query l = Some rs ->
  (length rs <= Nat.max l 25)%nat.
Proof.
  intros Hl. apply (search_rest_inv (fun rs => (length rs <= Nat.max l 25)%nat)).
  - intros rs' H. apply price_cases_length in H. lia.
  - intros q w s st rs'. unfold Engine.case3.
    destruct (WeaponSkin.search_by_weapon_and_skin extract e w s); [|discriminate].
    cbv zeta. destruct (Engine.prefer_st st _); [discriminate|].
    destruct (Engine.records e _); [|discriminate].
    destruct (Sort.sort_by _ _); [discriminate|].
    intros H. injection H as <-. take_len Hl.
  - intros w ip st rs'. unfold Engine.case4. cbv zeta.
    destruct (if ip then _ else []) as [|p0 ps] eqn:P.
    2:{ intros H. injection H as <-. rewrite <- P. destruct ip; [|simpl; lia].
        pose proof (proj1 (by_weapon_length w l)).
        pose proof (stattrak_if_length st _ _ H). lia. }
    destruct (Engine.prefer_st st _); [discriminate|].
    destruct (Engine.records e _); [|discriminate].
    destruct ip; (destruct (Sort.sort_by _ _); [discriminate|]);
    intros H; injection H as <-; take_len Hl.
  - intros q ip st rs'. unfold Engine.case5.
    destruct (Match.exact_match e q); [discriminate|]. cbv zeta.
    destruct (Engine.records e _) as [rs0|]; [|discriminate].
    destruct ip; [destruct (Sort.sort_by _ _)|destruct rs0]; try discriminate;
    intros H; injection H as <-; take_len Hl.
  - intros q ip st rs'. unfold Engine.case6.
    destruct (Fuzzy.fuzzy_search extract e q _) as [[|p0 ps]|]; try discriminate.
    { intros H. injection H as <-. simpl. lia. }
    cbv zeta. destruct (Engine.records e _); [|discriminate].
    intros H. injection H as <-. take_len Hl.
Qed.

Lemma search_length flag query l rs :
  (1 <= l)%nat -> fst (Engine.search extract pr e flag query l) = Some rs ->
  (length rs <= Nat.max l 25)%nat.
Proof.
  intros Hl. unfold Engine.search. destruct flag; [apply search_rest_length; exact Hl|].
  destruct (Engine.hierarchical extract e query l) as [[|h hs]|] eqn:H; simpl;
    [apply search_rest_length; exact Hl| |discriminate].
  intros E. injection E as <-. apply hierarchical_length in H. lia.
Qed.

(** No exception. *)

Lemma lookup_item_In n : In n (item_names e) -> exists it, lookup_item e n = Some it.
Proof.
  unfold item_names, lookup_item. intros Hn.
  destruct (find (fun p => String.eqb (fst p) n) (items e)) as [[k it]|] eqn:F; [eauto|].
  exfalso. apply in_map_iff in Hn. destruct Hn as [[k it] [Hk Hin]].
  pose proof (find_none _ _ F (k, it) Hin) as Hf. simpl in Hf, Hk. subst k.
  rewrite String.eqb_refl in Hf. discriminate.
Qed.

Lemma records_some names :
  (forall p, In p names -> In (fst p) (item_names e)) ->
  exists rs, Engine.records e names = Some rs.
Proof.
  induction names as [|[n sc] rest IH]; simpl; intros H; [eauto|].
  destruct (lookup_item_In n (H _ (or_introl eq_refl))) as [it Hl].
  unfold Engine.keyed_record. rewrite Hl.
  destruct IH as [rs' ->]; [intros p Hp; apply H; now right|]. eauto.
Qed.

Lemma unscored_ok (m : list string) :
  (forall n, In n m -> In n (item_names e)) ->
  forall p, In p (Engine.unscored m) -> In (fst p) (item_names e).
Proof.
  intros H p Hp. unfold Engine.unscored in Hp. apply in_map_iff in Hp.
  destruct Hp as [n [<- Hn]]. exact (H n Hn).
Qed.

Lemma bucket_prefer_ok st w :
  forall n, In n (Engine.prefer_st st (WeaponIndex.get (WeaponIndex.build_weapon_index e) w)) ->
  In n (item_names e).
Proof.
  intros n Hn. apply prefer_stattrak_In in Hn. eapply WeaponIndexFacts.bucket_names; eassumption.
Qed.

Hypothesis Hext : extract_ok extract.

Lemma case3_some q w s st l : exists o, Engine.case3 extract pr e q w s st l = Some o.
Proof.
  unfold Engine.case3.
  destruct (search_by_weapon_and_skin_some extract e w s Hext) as [m Hm]. rewrite Hm.
  cbv zeta. destruct (Engine.prefer_st st m) as [|n0 ns] eqn:Ep; [eauto|].
  destruct (records_some (Engine.unscored (n0 :: ns))) as [rs0 ->].
  { apply unscored_ok. intros n Hn. rewrite <- Ep in Hn. apply prefer_stattrak_In in Hn.
    destruct (search_by_weapon_and_skin_In _ _ _ _ _ _ Hm Hn) as [Hb _].
    eapply WeaponIndexFacts.bucket_names; eassumption. }
  destruct (Sort.sort_by _ rs0); eauto.
Qed.

Lemma case4_some w ip st l : exists o, Engine.case4 e w ip st l = Some o.
Proof.
  unfold Engine.case4. cbv zeta.
  destruct (if ip then _ else []); [|eauto].
  destruct (Engine.prefer_st st _) as [|n0 ns] eqn:Ep; [eauto|].
  destruct (records_some (Engine.unscored (n0 :: ns))) as [rs0 ->].
  { apply unscored_ok. rewrite <- Ep. apply bucket_prefer_ok. }
  destruct (if ip then _ else _); eauto.
Qed.

Lemma case5_some q ip st l : exists o, Engine.case5 e q ip st l = Some o.
Proof.
  unfold Engine.case5.
  destruct (Match.exact_match e q) as [|n0 ns] eqn:Ex; [eauto|]. cbv zeta.
  destruct (records_some (Engine.unscored (Engine.prefer_st st (n0 :: ns)))) as [rs0 ->].
  { apply unscored_ok. intros n Hn. apply prefer_stattrak_In in Hn.
    rewrite <- Ex in Hn. eapply MatchFacts.exact_match_subset; eassumption. }
  destruct (if ip then _ else _); eauto.
Qed.

Lemma prefer_st_scored_In b (l : list (string * Z)) p :
  In p (Engine.prefer_st_scored b l) -> In p l.
Proof.
  unfold Engine.prefer_st_scored. destruct b; [|auto].
  destruct (filter _ l) as [|m ms] eqn:E; [auto|].
  rewrite <- E. rewrite filter_In. tauto.
Qed.

Lemma case6_some q ip st l : exists rs, Engine.case6 extract e q ip st l = Some rs.
Proof.
  unfold Engine.case6.
  destruct (fuzzy_search_ok extract e q (match l with O => 20%nat | _ => l end) Hext)
    as [fr [-> Hfr]].
  destruct fr as [|p0 ps] eqn:Efr; [eauto|]. rewrite <- Efr. cbv zeta.
  destruct (records_some (map (fun p => (fst p, Some (snd p))) (Engine.prefer_st_scored st fr)))
    as [rs0 ->]; [|eauto].
  intros p Hp. apply in_map_iff in Hp. destruct Hp as [p' [<- Hp']].
  apply prefer_st_scored_In in Hp'. rewrite Efr in Hp'. exact (Hfr p' Hp').
Qed.

Lemma search_rest_some query l : exists rs, Engine.search_rest extract pr e query l = Some rs.
Proof.
  unfold Engine.search_rest.
  destruct (Price.detect_price_query _) as [[ip mx] mn].
  destruct (Search.price_cases e query); [eauto|].
  cbv zeta. unfold Engine.next_case.
  match goal with |- context [Engine.case5 e ?q ?ip ?st l] =>
    destruct (case5_some q ip st l) as [[r5|] ->];
    [|destruct (case6_some q ip st l) as [r6 ->]] end.
  all: destruct (Search.detected_weapon _) as [w|]; eauto.
  all: destruct (String.eqb _ "").
  all: match goal with
       | |- context [Engine.case4 _ ?w ?ip ?st ?l'] =>
           destruct (case4_some w ip st l') as [[r|] ->]; eauto
       | |- context [Engine.case3 _ _ _ ?q ?w ?s ?st ?l'] =>
           destruct (case3_some q w s st l') as [[r|] ->]; eauto
       end.
Qed.

Lemma hierarchical_some q l : exists rs, Engine.hierarchical extract e q l = Some rs.
Proof.
  unfold Engine.hierarchical. cbv zeta.
  match goal with |- exists _, (if ?b then _ else _) = _ => destruct b end; [|eauto].
  destruct (fuzzy_search_ok extract e (Py.strip (Py.lower q)) l Hext) as [fr [-> _]]. eauto.
Qed.

Lemma search_some flag query l : exists rs, fst (Engine.search extract pr e flag query l) = Some rs.
Proof.
  unfold Engine.search. destruct flag; [apply search_rest_some|].
  destruct (hierarchical_some query l) as [[|h hs] ->]; simpl; [apply search_rest_some|eauto].
Qed.

End Cases.

End EngineFacts.

Module FormatFacts.

Lemma startswith_app s t p : Py.startswith s p = true -> Py.startswith (s ++ t) p = true.
Proof.
  unfold Py.startswith. revert s. induction p as [|c p IH]; intros s;
    [intros _; destruct (s ++ t); reflexivity|].
  destruct s as [|c' s]; simpl; [discriminate|].
  destruct (ascii_dec c c'); [apply IH|discriminate].
Qed.

Lemma prefix_nil r : prefix "" r = true.
Proof. destruct r; reflexivity. Qed.

Ltac found_prefix :=
  repeat match goal with
  | |- Py.startswith (String _ _) _ = true =>
      unfold Py.startswith; simpl; apply prefix_nil
  | |- Py.startswith (_ ++ _) _ = true => apply startswith_app
  | |- Py.startswith (match ?x with _ => _ end) _ = true => destruct x
  end.

End FormatFacts.

(** X15: [format_search_results] on a non-empty result list raises [TypeError] exactly for a price query with a lower bound, no upper bound and 15 results (it computes [max_price - 5] on [None]); otherwise its text starts with "Found ". *)
Theorem format_found_type_error (fmt2 : Q -> string) (fmt_int : Z -> string)
    (fmt_nat : nat -> string) (results : list result) (query : string)
    (ip : bool) (mx mn : option Q)
    (Hdet : Price.detect_price_query query = (ip, mx, mn)) :
  (FormatFound.format_found fmt2 fmt_int fmt_nat results query = None <->
     ip = true /\ mx = None /\ mn <> None /\ length results = 15%nat) /\
  (forall s, FormatFound.format_found fmt2 fmt_int fmt_nat results query = Some s ->
     Py.startswith s "Found " = true).
Proof.
  unfold FormatFound.format_found. rewrite Hdet. cbv beta iota zeta.
  destruct (Nat.eqb (length results) 15) eqn:L;
    [apply Nat.eqb_eq in L|apply Nat.eqb_neq in L];
  destruct ip, mx as [x|], mn as [y|]; cbv [andb orb Price.is_some]; cbv beta iota.
  all: split;
    [ split;
      [ intros H; try discriminate H; repeat split; try reflexivity; try discriminate; exact L
      | intros (H1 & H2 & H3 & H4); try discriminate; try congruence;
        exfalso; apply H3; reflexivity ]
    | intros s Hs; try discriminate Hs; injection Hs as <-; FormatFacts.found_prefix ].
Qed.

Lemma format_found_type_error_witness :
  Price.detect_price_query "over 5" = (true, None, Some 5) /\
  FormatFound.format_found (fun _ => "") (fun _ => "") (fun _ => "")
    (repeat (mk_result "AWP | Asiimov (Field-Tested)" 6 6 6 1 None) 15) "over 5" = None.
Proof.
  split; [vm_compute; reflexivity|].
  apply (format_found_type_error (fun _ => "") (fun _ => "") (fun _ => "")
           (repeat (mk_result "AWP | Asiimov (Field-Tested)" 6 6 6 1 None) 15) "over 5"
           true None (Some 5)); [vm_compute; reflexivity|].
  split; [reflexivity|split; [reflexivity|split; [discriminate|reflexivity]]].
Defined.

Module Samples.

(** An extractor that keeps the first [k] choices with score 100. *)
Definition first_k_extract : WeaponSkin.extract_fn :=
  fun _ cs k => map (fun c => (c, 100%Z)) (firstn k cs).

Lemma first_k_extract_ok : WeaponSkinFacts.extract_ok first_k_extract.
Proof.
  intros q cs k p Hp. unfold first_k_extract in Hp.
  apply in_map_iff in Hp. destruct Hp as [c [<- Hc]].
  exact (RangeFacts.firstn_In_l _ _ _ Hc).
Qed.

Definition ratio_100 (_ _ : string) : Z := 100%Z.

Definition redline_catalog : engine :=
  mk_engine [("AK-47 | Redline (Field-Tested)", sample_item 5);
             ("StatTrak™ AK-47 | Redline (Field-Tested)", sample_item 9);
             ("AWP | Asiimov (Field-Tested)", sample_item 40)].

End Samples.

Lemma search_by_price_range_weapon_bucket_witness :
  PriceRange.weapon_given (Some "AK-47") = Some "AK-47" /\
  In (mk_result "AK-47 | Redline (Field-Tested)" 5 5 5 1 None)
     (PriceRange.search_by_price_range Samples.redline_catalog (Some "AK-47") None 0) /\
  WeaponIndex.weapon_bucket "AK-47 | Redline (Field-Tested)" = Some (Py.lower "AK-47") /\
  In "AK-47 | Redline (Field-Tested)" (item_names Samples.redline_catalog).
Proof.
  assert (Hw : PriceRange.weapon_given (Some "AK-47") = Some "AK-47") by reflexivity.
  assert (Hr : In (mk_result "AK-47 | Redline (Field-Tested)" 5 5 5 1 None)
     (PriceRange.search_by_price_range Samples.redline_catalog (Some "AK-47") None 0))
    by (vm_compute; left; reflexivity).
  split; [exact Hw|split; [exact Hr|]].
  exact (search_by_price_range_weapon_bucket Samples.redline_catalog (Some "AK-47") "AK-47"
           None 0 _ Hw Hr).
Defined.

Lemma search_by_price_range_not_excluded_witness :
  In (mk_result "AWP | Asiimov (Field-Tested)" 40 40 40 1 None)
     (PriceRange.search_by_price_range Samples.redline_catalog None None 0) /\
  PriceRange.excluded "AWP | Asiimov (Field-Tested)" = false /\
  exists it, lookup_item Samples.redline_catalog "AWP | Asiimov (Field-Tested)" = Some it /\
    price_record "AWP | Asiimov (Field-Tested)" it None =
      Some (mk_result "AWP | Asiimov (Field-Tested)" 40 40 40 1 None).
Proof.
  assert (Hr : In (mk_result "AWP | Asiimov (Field-Tested)" 40 40 40 1 None)
     (PriceRange.search_by_price_range Samples.redline_catalog None None 0))
    by (vm_compute; intuition congruence).
  split; [exact Hr|].
  exact (search_by_price_range_not_excluded Samples.redline_catalog None None 0 _ Hr).
Defined.

(** X8: every name [search_by_weapon_and_skin] returns is in the weapon's bucket of the weapon index; it is a StatTrak item when the skin name asks for StatTrak, and it contains the wear condition detected in the skin name. *)
Theorem search_by_weapon_and_skin_sound (extract : WeaponSkin.extract_fn) (e : engine)
    (weapon_type skin_name : string) (l : list string) (n : string)
    (Hs : WeaponSkin.search_by_weapon_and_skin extract e weapon_type skin_name = Some l)
    (Hn : In n l) :
  In n (WeaponIndex.get (WeaponIndex.build_weapon_index e) (Py.lower weapon_type)) /\
  (Py.any_in Match.st_terms (Py.strip (Py.lower skin_name)) = true ->
     Match.is_stattrak_name (Py.lower n) = true) /\
  (forall wear, Format.detected_wear (Py.strip (Py.lower skin_name)) = Some wear ->
     Py.contains (Py.lower wear) (Py.lower n) = true).
Proof.
  exact (WeaponSkinFacts.search_by_weapon_and_skin_In extract e weapon_type skin_name l n Hs Hn).
Qed.

Lemma search_by_weapon_and_skin_sound_witness :
  WeaponSkin.search_by_weapon_and_skin Samples.first_k_extract Samples.redline_catalog
    "AK-47" "stattrak redline" = Some ["StatTrak™ AK-47 | Redline (Field-Tested)"] /\
  In "StatTrak™ AK-47 | Redline (Field-Tested)"
    (WeaponIndex.get (WeaponIndex.build_weapon_index Samples.redline_catalog) (Py.lower "AK-47")).
Proof.
  assert (Hs : WeaponSkin.search_by_weapon_and_skin Samples.first_k_extract Samples.redline_catalog
    "AK-47" "stattrak redline" = Some ["StatTrak™ AK-47 | Redline (Field-Tested)"])
    by (vm_compute; reflexivity).
  split; [exact Hs|].
  exact (proj1 (search_by_weapon_and_skin_sound Samples.first_k_extract Samples.redline_catalog
    "AK-47" "stattrak redline" _ _ Hs (or_introl eq_refl))).
Defined.

(** X9: [search_by_weapon_and_skin] never raises [ValueError] from [list.index], as long as the extractor only returns choices it was given. *)
Theorem search_by_weapon_and_skin_no_value_error (extract : WeaponSkin.extract_fn)
    (Hext : WeaponSkinFacts.extract_ok extract) (e : engine) (weapon_type skin_name : string) :
  exists l, WeaponSkin.search_by_weapon_and_skin extract e weapon_type skin_name = Some l.
Proof.
  exact (WeaponSkinFacts.search_by_weapon_and_skin_some extract e weapon_type skin_name Hext).
Qed.

Lemma search_by_weapon_and_skin_no_value_error_witness :
  exists l, WeaponSkin.search_by_weapon_and_skin Samples.first_k_extract Samples.redline_catalog
    "AK-47" "blue gem" = Some l.
Proof.
  exact (search_by_weapon_and_skin_no_value_error Samples.first_k_extract
    Samples.first_k_extract_ok Samples.redline_catalog "AK-47" "blue gem").
Defined.

(** X10: [fuzzy_search] never raises, as long as the extractor only returns choices it was given, and every name it returns is a catalog name. *)
Theorem fuzzy_search_catalog_names (extract : WeaponSkin.extract_fn)
    (Hext : WeaponSkinFacts.extract_ok extract) (e : engine) (query : string) (top_k : nat) :
  exists l, Fuzzy.fuzzy_search extract e query top_k = Some l /\
    forall p, In p l -> In (fst p) (item_names e).
Proof.
  exact (FuzzyFacts.fuzzy_search_ok extract e query top_k Hext).
Qed.

Lemma fuzzy_search_catalog_names_witness :
  exists l, Fuzzy.fuzzy_search Samples.first_k_extract Samples.redline_catalog "ak redline" 5 = Some l /\
    forall p, In p l -> In (fst p) (item_names Samples.redline_catalog).
Proof.
  exact (fuzzy_search_catalog_names Samples.first_k_extract Samples.first_k_extract_ok
    Samples.redline_catalog "ak redline" 5).
Defined.

(** X11: every record [search] returns is the price dictionary of a catalog item (with or without a match score). *)
Theorem search_results_are_catalog_records (extract : WeaponSkin.extract_fn)
    (partial_ratio : string -> string -> Z) (e : engine) (flag : bool) (query : string)
    (limit : nat) (rs : list result)
    (Hs : fst (Engine.search extract partial_ratio e flag query limit) = Some rs) :
  forall r, In r rs -> exists it score,
    lookup_item e (item_name r) = Some it /\ price_record (item_name r) it score = Some r.
Proof.
  exact (EngineFacts.search_sound extract partial_ratio e flag query limit rs Hs).
Qed.

Lemma search_results_are_catalog_records_witness :
  exists it score,
    lookup_item Samples.redline_catalog "StatTrak™ AK-47 | Redline (Field-Tested)" = Some it /\
    price_record "StatTrak™ AK-47 | Redline (Field-Tested)" it score =
      Some (mk_result "StatTrak™ AK-47 | Redline (Field-Tested)" 9 9 9 1 (Some 100%Z)).
Proof.
  assert (Hs : fst (Engine.search Samples.first_k_extract Samples.ratio_100 Samples.redline_catalog
    false "cheapest ak-47" 5) =
      Some [mk_result "StatTrak™ AK-47 | Redline (Field-Tested)" 9 9 9 1 (Some 100%Z)])
    by (vm_compute; reflexivity).
  exact (search_results_are_catalog_records Samples.first_k_extract Samples.ratio_100
    Samples.redline_catalog false "cheapest ak-47" 5 _ Hs
    (mk_result "StatTrak™ AK-47 | Redline (Field-Tested)" 9 9 9 1 (Some 100%Z)) (or_introl eq_refl)).
Defined.

(** X12: [search] never raises, as long as the extractor only returns choices it was given. *)
Theorem search_never_raises (extract : WeaponSkin.extract_fn)
    (Hext : WeaponSkinFacts.extract_ok extract) (partial_ratio : string -> string -> Z)
    (e : engine) (flag : bool) (query : string) (limit : nat) :
  exists rs, fst (Engine.search extract partial_ratio e flag query limit) = Some rs.
Proof.
  exact (EngineFacts.search_some extract partial_ratio e Hext flag query limit).
Qed.

Lemma search_never_raises_witness :
  exists rs, fst (Engine.search Samples.first_k_extract Samples.ratio_100 Samples.redline_catalog
    false "asiimov under $50" 10) = Some rs.
Proof.
  exact (search_never_raises Samples.first_k_extract Samples.first_k_extract_ok Samples.ratio_100
    Samples.redline_catalog false "asiimov under $50" 10).
Defined.

(** X13: with a limit of at least 1, [search] returns at most [max limit 25] items (the price searches use their own caps of 15 and 25, whatever the limit). *)
Theorem search_length_bound (extract : WeaponSkin.extract_fn)
    (partial_ratio : string -> string -> Z) (e : engine) (flag : bool) (query : string)
    (limit : nat) (rs : list result) (Hl : (1 <= limit)%nat)
    (Hs : fst (Engine.search extract partial_ratio e flag query limit) = Some rs) :
  (length rs <= Nat.max limit 25)%nat.
Proof.
  exact (EngineFacts.search_length extract partial_ratio e flag query limit rs Hl Hs).
Qed.

Lemma search_length_bound_witness :
  (length [mk_result "AK-47 | Redline (Field-Tested)" 5 5 5 1 (Some 100%Z)] <= Nat.max 1 25)%nat.
Proof.
  apply (search_length_bound Samples.first_k_extract Samples.ratio_100 Samples.redline_catalog
    false "redline" 1); [lia|vm_compute; reflexivity].
Defined.

(** X14: a [search] call that starts without the [_from_hierarchical] flag always leaves it set, so the next call skips [hierarchical_search], runs the direct search, and clears the flag. *)
Theorem search_flag_second_call (extract : WeaponSkin.extract_fn)
    (partial_ratio : string -> string -> Z) (e : engine) (q1 q2 : string) (l1 l2 : nat) :
  Engine.search extract partial_ratio e
    (snd (Engine.search extract partial_ratio e false q1 l1)) q2 l2 =
  (Engine.search_rest extract partial_ratio e q2 l2, false).
Proof.
  unfold Engine.search at 2.
  destruct (Engine.hierarchical extract e q1 l1) as [[|h hs]|]; reflexivity.
Qed.
